(** * Telegram -> Wasabi relay bot: progress tracking, upload handler,
      file table and the recent-files endpoint of [main.py].

    Conventions of the embedding.
    - Python [int] is [Z].  A Python [float] is the rational it denotes, and
      every division and multiplication of floats is rounded to the nearest
      binary64 number, ties to even ([fl], [fdiv], [fmul]), as the hardware
      does; only the exponent range is left unbounded (no inf, nan or
      subnormal numbers).  Two operations are exact in binary64 and are
      written without rounding: the difference of two readings of the
      clock (they lie within a factor of two of each other, or one of them
      is the initial 0), and [size_bytes / 1024**i] for the sizes the
      formatter prints.
    - A raised exception is a value of [exn]; code that can raise returns
      [Result].
    - [time.time()] is an input of each call ([now]). *)

From Stdlib Require Import ZArith QArith Qround Qpower Lia List Bool String Ascii.
From Stdlib Require Import DecimalString Sorted Permutation Morphisms.
Import ListNotations.
Local Open Scope string_scope.
Local Open Scope Z_scope.

(* ===================================================================== *)
(** ** Python primitives *)
(* ===================================================================== *)

Inductive exn : Type :=
| ZeroDivisionError
| ValueError                 (* math.log of a non-positive number *)
| IndexError                 (* size_names[i] out of range *)
| ClientError                (* botocore.exceptions.ClientError *)
| OtherError (msg : string). (* any other Exception *)

Inductive Result (A : Type) : Type :=
| Ok (a : A)
| Raise (e : exn).
Arguments Ok {A} a.
Arguments Raise {A} e.

Definition nl : string := String (ascii_of_nat 10) EmptyString.

(** [str(n)] for a non-negative integer. *)
Definition str_nat (n : Z) : string :=
  NilZero.string_of_uint (N.to_uint (Z.to_N n)).

(** [s * n] for a one-character string: [n <= 0] gives the empty string. *)
Fixpoint repeat_str (s : string) (n : nat) : string :=
  match n with
  | O => EmptyString
  | S n' => s ++ repeat_str s n'
  end.

(** Left-pad a digit string with zeros up to [width] characters. *)
Definition zero_pad (width : nat) (s : string) : string :=
  repeat_str "0" (width - String.length s) ++ s.

(** [f"{n:02d}"] for a non-negative integer. *)
Definition fmt_02d (n : Z) : string := zero_pad 2 (str_nat n).

(** [int(x)]: truncation toward zero. *)
Definition py_int (x : Q) : Z :=
  if Qle_bool 0 x then Qfloor x else Qceiling x.

(** Round half to even of a rational, as [round] and the [f] format do on
    the exact value of their argument. *)
Definition round_half_even (x : Q) : Z :=
  let f := Qfloor x in
  let twice := Qfloor (x * 2) - 2 * f in      (* 0 or 1: first binary digit *)
  if twice =? 0 then f
  else if Qeq_bool (x * 2) (inject_Z (2 * f + 1))
       then (if Z.even f then f else f + 1)   (* exact tie *)
       else f + 1.

(** [2 ** e] as a rational. *)
Definition pow2 (e : Z) : Q := (2 ^ e)%Q.

(** [floor(log2(q))] for [q > 0]: the binary exponent of [q].  The
    difference of the bit lengths of numerator and denominator is the
    exponent or one more. *)
Definition ilog2 (q : Q) : Z :=
  let e0 := Z.log2 (Qnum q) - Z.log2 (Zpos (Qden q)) in
  if Qle_bool (pow2 e0) q then e0 else e0 - 1.

(** The binary64 number nearest to [q > 0]: a significand of 53 bits,
    rounded half to even. *)
Definition fl_pos (q : Q) : Q :=
  let e := ilog2 q in
  (inject_Z (round_half_even (q * pow2 (52 - e))) * pow2 (e - 52))%Q.

(** Rounding to binary64, the result of every float operation. *)
Definition fl (x : Q) : Q :=
  let q := Qred x in
  match Qnum q with
  | Z0 => 0%Q
  | Zpos _ => Qred (fl_pos q)
  | Zneg _ => Qred (- fl_pos (- q))
  end.

(** [x / y] and [x * y] on floats, and [float(z)] for an int. *)
Definition fdiv (x y : Q) : Q := fl (x / y).
Definition fmul (x y : Q) : Q := fl (x * y).
Definition of_int (z : Z) : Q := fl (inject_Z z).

(** [f"{x:.{d}f}"]: fixed notation with [d >= 1] decimals.  The sign is the
    sign of [x] itself (Python prints [-0.0] for a small negative [x]). *)
Definition fmt_fixed (d : nat) (x : Q) : string :=
  let scale := 10 ^ Z.of_nat d in
  let r := Z.abs (round_half_even (x * inject_Z scale)) in
  (if Qle_bool 0 x then "" else "-")
    ++ str_nat (r / scale) ++ "." ++ zero_pad d (str_nat (r mod scale)).

(** [str(round(x, 2))] for [0 <= x < 10**16]: the shortest decimal that
    reads back as the rounded value, with at least one decimal digit. *)
Definition str_round2 (x : Q) : string :=
  let r := round_half_even (x * 100) in
  let frac := r mod 100 in
  str_nat (r / 100) ++ "." ++
    (if frac mod 10 =? 0 then str_nat (frac / 10) else zero_pad 2 (str_nat frac)).

(** [math.floor(math.log(n, 1024))] for [n >= 1]: the largest [i] with
    [1024^i <= n].  [fuel] bounds the search; callers pass enough. *)
Fixpoint log1024_from (fuel : nat) (i : Z) (n : Z) : Z :=
  match fuel with
  | O => i
  | S fuel' => if n <? 1024 then i else log1024_from fuel' (i + 1) (n / 1024)
  end.

Definition floor_log1024 (n : Z) : Z :=
  log1024_from (Z.to_nat (Z.log2 n)) 0 n.

(* ===================================================================== *)
(** ** Formatting helpers ([_format_size], [_format_time],
       [_create_progress_bar]) *)
(* ===================================================================== *)

Module Fmt.

Definition size_names : list string := ["B"; "KB"; "MB"; "GB"].

(** [ProgressTracker._format_size], [DownloadProgress._format_size],
    [TelegramFileBot._format_file_size] and [WebServer._format_file_size]
    have the same body.  Beyond [2^1024] Python raises [OverflowError] from
    the float conversion one line before the table lookup; the model
    reports the lookup failure for every [i >= 4]. *)
Definition format_size (size_bytes : Z) : Result string :=
  if size_bytes =? 0 then Ok "0 B"
  else if size_bytes <? 0 then Raise ValueError
  else
    let i := floor_log1024 size_bytes in
    let p := 1024 ^ i in
    let s := str_round2 (size_bytes # Z.to_pos p) in
    match nth_error size_names (Z.to_nat i) with
    | Some unit => Ok (s ++ " " ++ unit)
    | None => Raise IndexError
    end.

(** [_format_time]: [MM:SS]; a negative duration gives the placeholder
    (inf and nan do not arise: the exponent range is unbounded). *)
Definition format_time (seconds : Q) : string :=
  if Qle_bool 0 seconds then
    let minutes := Qfloor (seconds / 60) in
    let secs := py_int (seconds - inject_Z (60 * minutes)) in
    fmt_02d minutes ++ ":" ++ fmt_02d secs
  else "--:--".

(** [_create_progress_bar] and [_create_download_progress_bar]. *)
Definition create_progress_bar (percentage : Q) (length : Z) : string :=
  let filled := py_int (fmul (fdiv percentage 100) (of_int length)) in
  let bar := repeat_str "█" (Z.to_nat filled)
             ++ repeat_str "░" (Z.to_nat (length - filled)) in
  "[" ++ bar ++ "] " ++ fmt_fixed 1 percentage ++ "%".

End Fmt.

(* ===================================================================== *)
(** ** Rendered progress status *)
(* ===================================================================== *)

(** The fields both progress texts are assembled from. *)
Record Status : Type := mkStatus {
  st_bar : string;       (* progress_bar *)
  st_pct : string;       (* {percentage:.1f} *)
  st_done : string;      (* _format_size(bytes so far) *)
  st_total : string;     (* _format_size(total) *)
  st_speed : string;     (* {speed_mbps:.2f} *)
  st_eta : string        (* eta_str *)
}.

Definition status_lines (s : Status) : string :=
  st_bar s ++ nl
  ++ "📊 **" ++ st_pct s ++ "%** (" ++ st_done s ++ " / " ++ st_total s ++ ")" ++ nl
  ++ "🚀 **Speed:** " ++ st_speed s ++ " MB/s" ++ nl
  ++ "⏱️ **ETA:** " ++ st_eta s ++ nl.

Definition upload_text (s : Status) : string :=
  "⚡ **TURBO UPLOAD** ⚡" ++ nl ++ nl ++ status_lines s
  ++ "⚡ **High-speed cloud upload in progress...**".

Definition download_text (s : Status) : string :=
  "⚡ **TURBO DOWNLOAD** ⚡" ++ nl ++ nl ++ status_lines s
  ++ "📡 **High-speed Telegram download...**".

(** [x > y] on floats. *)
Definition Qgt_bool (x y : Q) : bool := negb (Qle_bool x y).

(** [a / b] on two ints: the exact quotient, rounded once. *)
Definition true_div (a b : Z) : Q := fl (inject_Z a / inject_Z b).

Definition MiB : Q := inject_Z (1024 * 1024).

(* ===================================================================== *)
(** ** [class ProgressTracker] (upload leg) *)
(* ===================================================================== *)

Module ProgressTracker.

Record t : Type := mk {
  total_size : Z;
  update_interval : Q;
  bytes_transferred : Z;
  last_update_time : Q;
  start_time : Q;
  current_progress : option string
}.

(** [__init__]; [now] is the value of [time.time()]. *)
Definition init (total_size : Z) (update_interval : Q) (now : Q) : t :=
  {| total_size := total_size;
     update_interval := update_interval;
     bytes_transferred := 0;
     last_update_time := 0;
     start_time := now;
     current_progress := None |}.

(** The speed and ETA block of [__call__]: returns [speed_mbps] and
    [eta_str]. *)
Definition speed_eta (total transferred : Z) (elapsed_time : Q) : Q * string :=
  if Qgt_bool elapsed_time 0 then
    let speed_bps := fdiv (of_int transferred) elapsed_time in
    let speed_mbps := fdiv speed_bps MiB in
    if transferred >? 0 then
      let eta_seconds := fdiv (of_int (total - transferred)) speed_bps in
      (speed_mbps, Fmt.format_time eta_seconds)
    else (speed_mbps, "--:--")
  else (0%Q, "--:--").

(** The body of the [if] of [__call__] up to the finished text. *)
Definition render (tr : t) (current_time : Q) : Result string :=
  if total_size tr =? 0 then Raise ZeroDivisionError
  else
    let percentage := fmul (true_div (bytes_transferred tr) (total_size tr)) 100 in
    let elapsed_time := (current_time - start_time tr)%Q in
    let '(speed_mbps, eta_str) :=
      speed_eta (total_size tr) (bytes_transferred tr) elapsed_time in
    let progress_bar := Fmt.create_progress_bar percentage 20 in
    match Fmt.format_size (bytes_transferred tr) with
    | Raise e => Raise e
    | Ok done =>
      match Fmt.format_size (total_size tr) with
      | Raise e => Raise e
      | Ok total =>
        Ok (upload_text
              {| st_bar := progress_bar;
                 st_pct := fmt_fixed 1 percentage;
                 st_done := done;
                 st_total := total;
                 st_speed := fmt_fixed 2 speed_mbps;
                 st_eta := eta_str |})
      end
    end.

(** The test of the [if] of [__call__], after the accumulation. *)
Definition due (tr : t) (current_time : Q) : bool :=
  Qgt_bool (current_time - last_update_time tr)%Q (update_interval tr)
  || (bytes_transferred tr >=? total_size tr).

(** [self.bytes_transferred += bytes_amount]. *)
Definition accumulate (tr : t) (bytes_amount : Z) : t :=
  {| total_size := total_size tr;
     update_interval := update_interval tr;
     bytes_transferred := bytes_transferred tr + bytes_amount;
     last_update_time := last_update_time tr;
     start_time := start_time tr;
     current_progress := current_progress tr |}.

(** The two assignments that end the [if] of [__call__]. *)
Definition store (tr : t) (progress_text : string) (current_time : Q) : t :=
  {| total_size := total_size tr;
     update_interval := update_interval tr;
     bytes_transferred := bytes_transferred tr;
     last_update_time := current_time;
     start_time := start_time tr;
     current_progress := Some progress_text |}.

(** [__call__(bytes_amount)] at time [current_time].  An exception leaves
    the accumulated count in place and nothing else changed. *)
Definition call (tr : t) (bytes_amount : Z) (current_time : Q) : t * Result unit :=
  let tr1 := accumulate tr bytes_amount in
  if due tr1 current_time then
    match render tr1 current_time with
    | Raise e => (tr1, Raise e)
    | Ok progress_text => (store tr1 progress_text current_time, Ok tt)
    end
  else (tr1, Ok tt).

Definition get_progress (tr : t) : option string := current_progress tr.

(** A sequence of callbacks [(bytes_amount, current_time)], as the transfer
    thread issues them one after the other. *)
Definition feed (tr : t) (calls : list (Z * Q)) : t :=
  fold_left (fun acc c => fst (call acc (fst c) (snd c))) calls tr.

(** Whether every callback of the sequence returned normally. *)
Fixpoint all_ok (tr : t) (calls : list (Z * Q)) : bool :=
  match calls with
  | [] => true
  | c :: rest =>
    match call tr (fst c) (snd c) with
    | (tr', Ok _) => all_ok tr' rest
    | (_, Raise _) => false
    end
  end.

End ProgressTracker.

(* ===================================================================== *)
(** ** [class DownloadProgress] (download leg, local to
       [_turbo_download_media]) *)
(* ===================================================================== *)

Module DownloadProgress.

Record t : Type := mk {
  total_size : Z;
  downloaded : Z;
  start_time : Q;
  last_update : Q
}.

Definition init (total_size : Z) (now : Q) : t :=
  {| total_size := total_size; downloaded := 0;
     start_time := now; last_update := 0 |}.

(** The speed and ETA block of [update]. *)
Definition speed_eta (total current : Z) (elapsed : Q) : Q * string :=
  if Qgt_bool elapsed 0 then
    let speed_bps := fdiv (of_int current) elapsed in
    let speed_mbps := fdiv speed_bps MiB in
    let eta_seconds :=
      if Qgt_bool speed_bps 0 then fdiv (of_int (total - current)) speed_bps
      else 0%Q in
    (speed_mbps, Fmt.format_time eta_seconds)
  else (0%Q, "--:--").

Definition render (dp : t) (current total : Z) (current_time : Q) : Result string :=
  if total =? 0 then Raise ZeroDivisionError
  else
    let percentage := fmul (true_div current total) 100 in
    let elapsed := (current_time - start_time dp)%Q in
    let '(speed_mbps, eta_str) := speed_eta total current elapsed in
    let progress_bar := Fmt.create_progress_bar percentage 20 in
    match Fmt.format_size current with
    | Raise e => Raise e
    | Ok done =>
      match Fmt.format_size total with
      | Raise e => Raise e
      | Ok tot =>
        Ok (download_text
              {| st_bar := progress_bar;
                 st_pct := fmt_fixed 1 percentage;
                 st_done := done;
                 st_total := tot;
                 st_speed := fmt_fixed 2 speed_mbps;
                 st_eta := eta_str |})
      end
    end.

(** [update(current, total)] at time [current_time].  The result carries
    the text handed to [progress_message.edit_text], if any; a failing edit
    is swallowed by the [try], so its outcome does not matter here. *)
Definition update (dp : t) (current total : Z) (current_time : Q)
  : t * Result (option string) :=
  let dp1 := {| total_size := total_size dp; downloaded := current;
                start_time := start_time dp; last_update := last_update dp |} in
  if Qgt_bool (current_time - last_update dp1)%Q (3 # 2) then
    match render dp1 current total current_time with
    | Raise e => (dp1, Raise e)
    | Ok progress_text =>
      ({| total_size := total_size dp1; downloaded := downloaded dp1;
          start_time := start_time dp1; last_update := current_time |},
       Ok (Some progress_text))
    end
  else (dp1, Ok None).

End DownloadProgress.

(* ===================================================================== *)
(** ** Python [dict] with [str] keys: insertion-ordered *)
(* ===================================================================== *)

Module PyDict.
Section Dict.
Context {V : Type}.

Definition dict : Type := list (string * V).

(** [d[k] = v]: replaces the value in place when [k] is present, appends
    the pair otherwise.  It never fails. *)
Fixpoint set (d : dict) (k : string) (v : V) : dict :=
  match d with
  | [] => [(k, v)]
  | (k', v') :: d' =>
    if String.eqb k' k then (k', v) :: d' else (k', v') :: set d' k v
  end.

(** [d.get(k)]. *)
Fixpoint get (d : dict) (k : string) : option V :=
  match d with
  | [] => None
  | (k', v') :: d' => if String.eqb k' k then Some v' else get d' k
  end.

(** [k in d]. *)
Definition mem (d : dict) (k : string) : bool :=
  match get d k with Some _ => true | None => false end.

(** [d.items()], in insertion order. *)
Definition items (d : dict) : list (string * V) := d.

(** [len(d)]. *)
Definition len (d : dict) : nat := List.length d.
End Dict.
Arguments dict V : clear implicits.
End PyDict.

(* ===================================================================== *)
(** ** [class TelegramFileBot]: the file table and [handle_file_upload] *)
(* ===================================================================== *)

Module Bot.

(** The value stored under a file id in [self.uploaded_files]. *)
Record FileInfo : Type := mkFileInfo {
  original_name : string;
  object_key : string;
  download_url : string;
  file_size : Z;
  upload_time : string;   (* datetime.now().isoformat() *)
  user_id : Z
}.

(** What the handler reads of a media attachment. *)
Record Media : Type := mkMedia {
  media_file_size : Z;                  (* getattr(file_info, 'file_size', 0) *)
  media_file_name : option string       (* None: no [file_name] attribute *)
}.

Record Message : Type := mkMessage {
  document : option Media;
  video : option Media;
  audio : option Media;
  photo : list Media;
  from_user_id : Z
}.

(** The texts the handler sends; [text_string] gives their wording. *)
Inductive Text : Type :=
| TUnsupported
| TTooLarge
| TDownloadInit
| TDownloadComplete (name size speed time : string)
| TUploadComplete (name size file_id streaming_url : string)
| TUploadFailed
| TUploadError (msg : string).

Definition text_string (t : Text) : string :=
  match t with
  | TUnsupported => "❌ Unsupported file type."
  | TTooLarge => "❌ File too large! Maximum size is 4GB."
  | TDownloadInit =>
      "⚡ **TURBO DOWNLOAD INITIATED** ⚡" ++ nl ++ nl
      ++ "🚀 High-speed download from Telegram..." ++ nl
      ++ "📡 Optimizing transfer protocols..."
  | TDownloadComplete name size speed time =>
      "✅ **TURBO DOWNLOAD COMPLETE** ⚡" ++ nl ++ nl
      ++ "📁 **File:** " ++ name ++ nl
      ++ "📊 **Size:** " ++ size ++ nl
      ++ "🚀 **Speed:** " ++ speed ++ " MB/s" ++ nl
      ++ "⏱️ **Time:** " ++ time ++ "s" ++ nl ++ nl
      ++ "☁️ **Initializing cloud upload...**"
  | TUploadComplete name size file_id streaming_url =>
      nl ++ "✅ **TURBO UPLOAD COMPLETE!** ⚡" ++ nl ++ nl
      ++ "📁 **File:** " ++ name ++ nl
      ++ "📊 **Size:** " ++ size ++ nl
      ++ "🆔 **File ID:** `" ++ file_id ++ "`" ++ nl ++ nl
      ++ "🔗 **High-Speed Streaming Link:** " ++ nl
      ++ "`" ++ streaming_url ++ "`" ++ nl ++ nl
      ++ "🚀 **Features:**" ++ nl
      ++ "• ⚡ Turbo-speed upload completed" ++ nl
      ++ "• 📱 MX Player/VLC compatible" ++ nl
      ++ "• 🌐 Direct streaming (no download needed)" ++ nl
      ++ "• ☁️ Secure cloud storage" ++ nl
      ++ "⬇️ **Get Link Again:** /download " ++ file_id ++ nl
      ++ "                    "
  | TUploadFailed => "❌ Upload failed. Please try again."
  | TUploadError msg => "❌ Upload failed: " ++ msg
  end.

(** [str(e)]. *)
Definition exn_str (e : exn) : string :=
  match e with
  | ZeroDivisionError => "division by zero"
  | ValueError => "math domain error"
  | IndexError => "list index out of range"
  | ClientError => "ClientError"
  | OtherError msg => msg
  end.

(** [str(n)] for any integer. *)
Definition str_int (n : Z) : string :=
  if n <? 0 then "-" ++ str_nat (- n) else str_nat n.

(** What one invocation does to its surroundings, in the order it does it. *)
Inductive Event : Type :=
| EvAcquire                                        (* throttler.__aenter__ *)
| EvReply (t : Text) (r : Result unit)             (* message.reply_text *)
| EvEdit (t : Text) (r : Result unit)              (* progress_msg.edit_text *)
| EvMkdir (dir : string)
| EvDownload (path : string) (r : Result unit)     (* app.download_media *)
| EvUpload (path key : string) (r : Result unit)   (* s3_client.upload_file *)
| EvPut (file_id : string) (info : FileInfo)       (* uploaded_files[file_id] = ... *)
| EvPresign (key : string) (r : Result string)     (* generate_presigned_url *)
| EvRemove (path : string) (removed : bool)        (* os.remove *)
| EvLogError (e : exn).                            (* logger.error *)

(** The state an invocation reads and writes: the file table of the bot and
    the files present under [downloads/]. *)
Record World : Type := mkWorld {
  uploaded_files : PyDict.dict FileInfo;
  staged : list string
}.

(** Everything the invocation does not decide itself. *)
Record Env : Type := mkEnv {
  env_bucket : string;                    (* storage.bucket *)
  env_region : string;                    (* storage.region *)
  env_uuid4 : string;                     (* str(uuid.uuid4()) *)
  env_time_before : Q;                    (* time.time() before the download *)
  env_time_after : Q;                     (* time.time() after the download *)
  env_now_iso : string;                   (* datetime.now().isoformat() *)
  env_send : Text -> Result unit;         (* outcome of a Telegram send *)
  env_download : Result unit;             (* outcome of app.download_media *)
  env_download_writes_file : bool;        (* the staging file exists afterwards *)
  env_upload : Result unit;               (* outcome of s3_client.upload_file *)
  env_presign : Result string;            (* outcome of generate_presigned_url *)
  env_remove_ok : bool                    (* os.remove succeeds *)
}.

(** State, exceptions and the event log.  The state survives a raise. *)
Definition M (A : Type) : Type := World -> Result A * World * list Event.

Definition ret {A} (a : A) : M A := fun w => (Ok a, w, []).

Definition bind {A B} (c : M A) (k : A -> M B) : M B :=
  fun w =>
    match c w with
    | (Ok a, w1, ev1) =>
      match k a w1 with (r, w2, ev2) => (r, w2, (ev1 ++ ev2)%list) end
    | (Raise e, w1, ev1) => (Raise e, w1, ev1)
    end.

Definition raise {A} (e : exn) : M A := fun w => (Raise e, w, []).

Definition emit (ev : Event) : M unit := fun w => (Ok tt, w, [ev]).

Definition get_world : M World := fun w => (Ok w, w, []).

Definition put_world (w : World) : M unit := fun _ => (Ok tt, w, []).

Definition lift {A} (r : Result A) : M A := fun w => (r, w, []).

(** [try: c except Exception as e: h e]. *)
Definition try_except {A} (c : M A) (h : exn -> M A) : M A :=
  fun w =>
    match c w with
    | (Ok a, w1, ev1) => (Ok a, w1, ev1)
    | (Raise e, w1, ev1) =>
      match h e w1 with (r, w2, ev2) => (r, w2, (ev1 ++ ev2)%list) end
    end.

Declare Scope bot_scope.
Delimit Scope bot_scope with bot.
Notation "x <- c ;; k" := (bind c (fun x => k))
  (at level 61, c at next level, right associativity) : bot_scope.
Notation "c ;; k" := (bind c (fun _ => k))
  (at level 61, right associativity) : bot_scope.
Local Open Scope bot_scope.

(** [message.reply_text(t)] and [progress_msg.edit_text(t)]. *)
Definition reply_text (env : Env) (t : Text) : M unit :=
  emit (EvReply t (env_send env t)) ;; lift (env_send env t).

Definition edit_text (env : Env) (t : Text) : M unit :=
  emit (EvEdit t (env_send env t)) ;; lift (env_send env t).

(** The [if/elif] chain choosing [file_info]. *)
Definition select_file_info (message : Message) : option Media :=
  match document message with
  | Some d => Some d
  | None =>
    match video message with
    | Some v => Some v
    | None =>
      match audio message with
      | Some a => Some a
      | None =>
        match photo message with
        | [] => None
        | p :: ps => Some (last ps p)          (* message.photo[-1] *)
        end
      end
    end
  end.

Definition max_file_size : Z := 4 * 1024 * 1024 * 1024.

(** [_turbo_download_media]: the progress callback only edits the status
    message; the outcome of the transport call is [env_download], and
    [env_download_writes_file] says whether the staging file exists when
    the call is over. *)
Definition turbo_download_media (env : Env) (file_path : string) : M unit :=
  try_except
    (emit (EvDownload file_path (env_download env)) ;;
     w <- get_world ;;
     (if env_download_writes_file env
      then put_world {| uploaded_files := uploaded_files w;
                        staged := file_path :: staged w |}
      else ret tt) ;;
     lift (env_download env))
    (fun e => emit (EvLogError e) ;; raise e).

Definition path_in (path : string) (files : list string) : bool :=
  existsb (String.eqb path) files.

(** [WasabiStorage.upload_file]: [os.path.getsize] raises on a missing
    file; a [ClientError] is logged and turned into [None]; any other
    exception propagates.  The status edits of the polling loop are not
    recorded. *)
Definition upload_file (env : Env) (file_path object_key : string)
  : M (option string) :=
  try_except
    (w <- get_world ;;
     if path_in file_path (staged w) then
       emit (EvUpload file_path object_key (env_upload env)) ;;
       lift (env_upload env) ;;
       ret (Some ("https://s3." ++ env_region env ++ ".wasabisys.com/"
                  ++ env_bucket env ++ "/" ++ object_key))
     else raise (OtherError "FileNotFoundError"))
    (fun e =>
       match e with
       | ClientError => emit (EvLogError e) ;; ret None
       | _ => raise e
       end).

(** [WasabiStorage.get_download_link]. *)
Definition get_download_link (env : Env) (object_key : string)
  : M (option string) :=
  try_except
    (emit (EvPresign object_key (env_presign env)) ;;
     url <- lift (env_presign env) ;;
     ret (Some url))
    (fun e =>
       match e with
       | ClientError => emit (EvLogError e) ;; ret None
       | _ => raise e
       end).

(** [self.uploaded_files[file_id] = info]. *)
Definition registry_put (file_id : string) (info : FileInfo) : M unit :=
  w <- get_world ;;
  emit (EvPut file_id info) ;;
  put_world {| uploaded_files := PyDict.set (uploaded_files w) file_id info;
               staged := staged w |}.

Fixpoint remove_path (path : string) (files : list string) : list string :=
  match files with
  | [] => []
  | f :: fs => if String.eqb path f then remove_path path fs
               else f :: remove_path path fs
  end.

(** [try: os.remove(path) except: pass]. *)
Definition remove_quietly (env : Env) (path : string) : M unit :=
  w <- get_world ;;
  if path_in path (staged w) && env_remove_ok env then
    emit (EvRemove path true) ;;
    put_world {| uploaded_files := uploaded_files w;
                 staged := remove_path path (staged w) |}
  else emit (EvRemove path false).

(** [str(x)] of an [Optional[str]] inside an f-string. *)
Definition str_option (o : option string) : string :=
  match o with Some s => s | None => "None" end.

(** [handle_file_upload(client, message)]. *)
Definition handle_file_upload (env : Env) (message : Message) : M unit :=
  emit EvAcquire ;;                                    (* async with self.throttler *)
  try_except
    (match select_file_info message with
     | None => reply_text env TUnsupported
     | Some file_info =>
       let file_size := media_file_size file_info in
       if file_size >? max_file_size then reply_text env TTooLarge
       else
         let file_id := env_uuid4 env in
         let original_name :=
           match media_file_name file_info with
           | Some n => n
           | None => "file_" ++ file_id
           end in
         let object_key :=
           "files/" ++ str_int (from_user_id message) ++ "/"
           ++ file_id ++ "_" ++ original_name in
         reply_text env TDownloadInit ;;
         emit (EvMkdir "downloads") ;;
         let local_file_path := "downloads/" ++ file_id ++ "_" ++ original_name in
         let start_time := env_time_before env in
         turbo_download_media env local_file_path ;;
         let download_time := (env_time_after env - start_time)%Q in
         let download_speed :=
           if Qgt_bool download_time 0
           then fdiv (fdiv (of_int file_size) download_time) MiB
           else 0%Q in
         size <- lift (Fmt.format_size file_size) ;;
         edit_text env (TDownloadComplete original_name size
                          (fmt_fixed 2 download_speed)
                          (fmt_fixed 1 download_time)) ;;
         download_url <- upload_file env local_file_path object_key ;;
         match download_url with
         | Some url =>
           registry_put file_id
             {| original_name := original_name;
                object_key := object_key;
                download_url := url;
                file_size := file_size;
                upload_time := env_now_iso env;
                user_id := from_user_id message |} ;;
           streaming_url <- get_download_link env object_key ;;
           size' <- lift (Fmt.format_size file_size) ;;
           edit_text env (TUploadComplete original_name size' file_id
                            (str_option streaming_url)) ;;
           remove_quietly env local_file_path
         | None => edit_text env TUploadFailed
         end
     end)
    (fun e =>
       emit (EvLogError e) ;;
       reply_text env (TUploadError (exn_str e))).

(** Projections of a run. *)
Definition result_of {A} (x : Result A * World * list Event) : Result A := fst (fst x).
Definition world_of {A} (x : Result A * World * list Event) : World := snd (fst x).
Definition events_of {A} (x : Result A * World * list Event) : list Event := snd x.

Definition is_acquire (ev : Event) : bool :=
  match ev with EvAcquire => true | _ => false end.
Definition is_put (ev : Event) : bool :=
  match ev with EvPut _ _ => true | _ => false end.
Definition is_transfer (ev : Event) : bool :=
  match ev with EvDownload _ _ | EvUpload _ _ _ => true | _ => false end.
Definition is_remove (ev : Event) : bool :=
  match ev with EvRemove _ _ => true | _ => false end.

Definition count (p : Event -> bool) (evs : list Event) : nat :=
  List.length (filter p evs).

End Bot.

(* ===================================================================== *)
(** ** [class WebServer]: [GET /api/files] *)
(* ===================================================================== *)

Module Web.

(** One element of [files_data]. *)
Record FileEntry : Type := mkFileEntry {
  id : string;
  name : string;
  size : string;
  date : string;
  streaming_url : string
}.

Inductive Response : Type :=
| Success (files : list FileEntry)     (* {'status': 'success', 'files': ...} *)
| Error (message : string).            (* {'status': 'error', 'message': ...} *)

(** The loop filling [files_data]. *)
Fixpoint build (items : list (string * Bot.FileInfo)) : Result (list FileEntry) :=
  match items with
  | [] => Ok []
  | (file_id, file_info) :: rest =>
    match Fmt.format_size (Bot.file_size file_info) with
    | Raise e => Raise e
    | Ok sz =>
      match build rest with
      | Raise e => Raise e
      | Ok entries =>
        Ok ({| id := file_id;
               name := Bot.original_name file_info;
               size := sz;
               date := substring 0 10 (Bot.upload_time file_info);
               streaming_url := Bot.download_url file_info |} :: entries)
      end
    end
  end.

(** [list.sort(key=lambda x: x['date'], reverse=True)]: a stable sort, so
    entries with equal keys keep their order.  [insert_desc] puts [x] after
    every entry whose key is at least its own. *)
Fixpoint insert_desc (x : FileEntry) (l : list FileEntry) : list FileEntry :=
  match l with
  | [] => [x]
  | y :: l' =>
    if String.ltb (date y) (date x) then x :: y :: l'
    else y :: insert_desc x l'
  end.

Definition sort_by_date_desc (l : list FileEntry) : list FileEntry :=
  fold_left (fun acc x => insert_desc x acc) l [].

(** [api_files()]. *)
Definition api_files (uploaded_files : PyDict.dict Bot.FileInfo) : Response :=
  match build (PyDict.items uploaded_files) with
  | Raise e => Error (Bot.exn_str e)
  | Ok files_data => Success (firstn 20 (sort_by_date_desc files_data))
  end.

End Web.

(* ===================================================================== *)
(** ** [class TelegramFileBot]: the [/list] and [/download] commands *)
(* ===================================================================== *)

Module Commands.

(** One block of the [/list] reply. *)
Record ListEntry : Type := mkListEntry {
  le_name : string;      (* file_info['original_name'] *)
  le_id : string;        (* file_id *)
  le_size : string;      (* _format_file_size(file_info['file_size']) *)
  le_date : string       (* file_info['upload_time'][:10] *)
}.

(** The texts the two commands send. *)
Inductive Text : Type :=
| TNoFiles
| TFileList (entries : list ListEntry)
| TUsage
| TNotFound
| TDownloadLink (name size streaming_url : string)
| TLinkFailed
| TLinkError.

Definition entry_string (e : ListEntry) : string :=
  "📁 **" ++ le_name e ++ "**" ++ nl
  ++ "🆔 ID: `" ++ le_id e ++ "`" ++ nl
  ++ "📊 Size: " ++ le_size e ++ nl
  ++ "📅 Uploaded: " ++ le_date e ++ nl
  ++ "⬇️ Download: /download " ++ le_id e ++ nl ++ nl.

Definition text_string (t : Text) : string :=
  match t with
  | TNoFiles =>
      "📁 No files uploaded yet." ++ nl ++ nl ++ "Send me any file to get started!"
  | TFileList entries =>
      "📋 **Your Uploaded Files:**" ++ nl ++ nl
      ++ String.concat "" (map entry_string entries)
  | TUsage =>
      "❌ Please provide a file ID." ++ nl ++ nl ++ "Usage: /download [file_id]"
  | TNotFound => "❌ File not found. Use /list to see available files."
  | TDownloadLink name size streaming_url =>
      nl ++ "📁 **" ++ name ++ "**" ++ nl
      ++ "📊 **Size:** " ++ size ++ nl ++ nl
      ++ "🔗 **Streaming Link (24h):**" ++ nl
      ++ "`" ++ streaming_url ++ "`" ++ nl ++ nl
      ++ "📱 **For Mobile Players:**" ++ nl
      ++ "• Copy the link above" ++ nl
      ++ "• Open MX Player or VLC" ++ nl
      ++ "• Select " ++ String (ascii_of_nat 34) "Stream" ++ String (ascii_of_nat 34) " or "
      ++ String (ascii_of_nat 34) "Network Stream" ++ String (ascii_of_nat 34) EmptyString ++ nl
      ++ "• Paste the link" ++ nl ++ nl
      ++ "💡 **Tip:** This link works for direct streaming without downloading!" ++ nl
      ++ "                "
  | TLinkFailed => "❌ Failed to generate download link. Please try again."
  | TLinkError => "❌ Error generating download link."
  end.

(** What a command does to its surroundings. *)
Inductive Event : Type :=
| EvReply (t : Text) (r : Result unit)                  (* message.reply_text *)
| EvPresign (key : string) (expires_in : Z) (r : Result string)
                                                        (* generate_presigned_url *)
| EvLogError (e : exn).                                 (* logger.error *)

(** The surroundings: the outcome of a Telegram send and of a presign
    request for a key and a lifetime. *)
Record Env : Type := mkEnv {
  env_send : Text -> Result unit;
  env_presign : string -> Z -> Result string
}.

(** A command's log and outcome.  The commands only read the file table. *)
Definition C (A : Type) : Type := list Event * Result A.

Definition ret {A} (a : A) : C A := ([], Ok a).

Definition bind {A B} (c : C A) (k : A -> C B) : C B :=
  match c with
  | (ev1, Ok a) => match k a with (ev2, r) => ((ev1 ++ ev2)%list, r) end
  | (ev1, Raise e) => (ev1, Raise e)
  end.

Definition try_except {A} (c : C A) (h : exn -> C A) : C A :=
  match c with
  | (ev1, Ok a) => (ev1, Ok a)
  | (ev1, Raise e) => match h e with (ev2, r) => ((ev1 ++ ev2)%list, r) end
  end.

Definition lift {A} (r : Result A) : C A := ([], r).

Definition emit (ev : Event) : C unit := ([ev], Ok tt).

Definition reply_text (env : Env) (t : Text) : C unit :=
  ([EvReply t (env_send env t)], env_send env t).

(** [WasabiStorage.get_download_link(object_key, expires_in)]. *)
Definition get_download_link (env : Env) (object_key : string) (expires_in : Z)
  : C (option string) :=
  try_except
    (bind (emit (EvPresign object_key expires_in (env_presign env object_key expires_in)))
       (fun _ =>
          bind (lift (env_presign env object_key expires_in))
            (fun url => ret (Some url))))
    (fun e =>
       match e with
       | ClientError => bind (emit (EvLogError e)) (fun _ => ret None)
       | _ => (([] : list Event), Raise e)
       end).

(** [f['user_id'] == message.from_user.id]. *)
Definition owned_by (uid : Z) (item : string * Bot.FileInfo) : bool :=
  Bot.user_id (snd item) =? uid.

(** The loop of [handle_list_files] building the reply, one block for each
    record of the user, in the order of the table. *)
Fixpoint list_entries (items : list (string * Bot.FileInfo)) (uid : Z)
  : Result (list ListEntry) :=
  match items with
  | [] => Ok []
  | (file_id, file_info) :: rest =>
    if Bot.user_id file_info =? uid then
      match Fmt.format_size (Bot.file_size file_info) with
      | Raise e => Raise e
      | Ok sz =>
        match list_entries rest uid with
        | Raise e => Raise e
        | Ok entries =>
          Ok ({| le_name := Bot.original_name file_info;
                 le_id := file_id;
                 le_size := sz;
                 le_date := substring 0 10 (Bot.upload_time file_info) |} :: entries)
        end
      end
    else list_entries rest uid
  end.

(** [handle_list_files(client, message)] for the user [uid].  There is no
    [try] here: an exception leaves the handler. *)
Definition handle_list_files (env : Env) (uploaded_files : PyDict.dict Bot.FileInfo)
  (uid : Z) : C unit :=
  let user_files := filter (owned_by uid) (PyDict.items uploaded_files) in
  match user_files with
  | [] => reply_text env TNoFiles
  | _ :: _ =>
    bind (lift (list_entries (PyDict.items uploaded_files) uid))
      (fun entries => reply_text env (TFileList entries))
  end.

(** Truth value of an [Optional[str]]. *)
Definition truthy (o : option string) : bool :=
  match o with
  | Some s => negb (String.eqb s "")
  | None => false
  end.

(** [handle_download_command(client, message)]; [command_parts] is the
    value of [message.text.split()]. *)
Definition handle_download_command (env : Env)
  (uploaded_files : PyDict.dict Bot.FileInfo) (command_parts : list string) : C unit :=
  try_except
    (match command_parts with
     | [] => reply_text env TUsage
     | [_] => reply_text env TUsage
     | _ :: file_id :: _ =>
       match PyDict.get uploaded_files file_id with
       | None => reply_text env TNotFound
       | Some file_info =>
         bind (get_download_link env (Bot.object_key file_info) 86400)
           (fun streaming_url =>
              if truthy streaming_url then
                bind (lift (Fmt.format_size (Bot.file_size file_info)))
                  (fun sz =>
                     reply_text env
                       (TDownloadLink (Bot.original_name file_info) sz
                          (Bot.str_option streaming_url)))
              else reply_text env TLinkFailed)
       end
     end)
    (fun e => bind (emit (EvLogError e)) (fun _ => reply_text env TLinkError)).

Definition is_presign (ev : Event) : bool :=
  match ev with EvPresign _ _ _ => true | _ => false end.

Definition is_reply (ev : Event) : bool :=
  match ev with EvReply _ _ => true | _ => false end.

End Commands.

(* ===================================================================== *)
(** ** [class WebServer]: [GET /stream/<file_id>] and [GET /health] *)
(* ===================================================================== *)

Module Routes.

Inductive Response : Type :=
| Body (status : Z) (text : string)     (* return text, status *)
| Redirect (location : string).         (* return redirect(location) *)

(** [stream_file(file_id)]; [presign key expires_in] is the outcome of
    [generate_presigned_url]. *)
Definition stream_file (presign : string -> Z -> Result string)
  (uploaded_files : PyDict.dict Bot.FileInfo) (file_id : string) : Response :=
  match PyDict.get uploaded_files file_id with
  | None => Body 404 "File not found"
  | Some file_info =>
    match presign (Bot.object_key file_info) 3600 with
    | Ok url =>
      if negb (String.eqb url "") then Redirect url
      else Body 500 "Failed to generate streaming link"
    | Raise ClientError => Body 500 "Failed to generate streaming link"
    | Raise e => Body 500 ("Error: " ++ Bot.exn_str e)
    end
  end.

(** The [files_count] field of [health()]. *)
Definition files_count (uploaded_files : PyDict.dict Bot.FileInfo) : nat :=
  PyDict.len uploaded_files.

End Routes.

(* ===================================================================== *)
(** ** [main()]: the check of the environment *)
(* ===================================================================== *)

Module Main.

Definition required_vars : list string :=
  ["API_ID"; "API_HASH"; "BOT_TOKEN";
   "WASABI_ACCESS_KEY"; "WASABI_SECRET_KEY";
   "WASABI_BUCKET"; "WASABI_REGION"].

(** [not os.getenv(var)]: unset or set to the empty string. *)
Definition unset (getenv : string -> option string) (var : string) : bool :=
  match getenv var with
  | Some s => String.eqb s ""
  | None => true
  end.

Definition missing_vars (getenv : string -> option string) : list string :=
  filter (unset getenv) required_vars.

(** What the first statements of [main] decide.  [CheckPassed] says only
    that [main] falls through to [bot = TelegramFileBot()]: the constructor
    and the start of the web thread and of the bot run library code and can
    still raise; they are not modelled. *)
Inductive Outcome : Type :=
| ConfigError (logged : string)     (* logger.error(...); return *)
| CheckPassed.

(** [main], up to and including its [if missing_vars:]. *)
Definition main (getenv : string -> option string) : Outcome :=
  match missing_vars getenv with
  | [] => CheckPassed
  | missing =>
    ConfigError ("Missing environment variables: " ++ String.concat ", " missing)
  end.

End Main.

(* ===================================================================== *)
(** ** Vocabulary of the statements *)
(* ===================================================================== *)

(** The sum of the byte counts of a sequence of callbacks. *)
Definition sum_deltas (calls : list (Z * Q)) : Z :=
  fold_right Z.add 0 (map fst calls).

(** Byte counts are never negative. *)
Definition nonneg_deltas (calls : list (Z * Q)) : Prop :=
  Forall (fun c => 0 <= fst c) calls.

(** The bar of a finished transfer: twenty filled cells. *)
Definition full_bar : string := "[████████████████████] 100.0%".


(** Sample trackers. *)
Definition tracker_10 : ProgressTracker.t := ProgressTracker.init 10 (3 # 2) 1000.

Definition tracker_1TiB : ProgressTracker.t :=
  ProgressTracker.init (1024 ^ 4) (3 # 2) 1000.

(** A tracker of 100 bytes that sampled once, at time 1000. *)
Definition tracker_sampled : ProgressTracker.t :=
  ProgressTracker.feed (ProgressTracker.init 100 (3 # 2) 1000) [(10, 1000%Q)].

(** Sample surroundings: every external call succeeds. *)
Definition sample_env : Bot.Env :=
  {| Bot.env_bucket := "bucket";
     Bot.env_region := "eu-central-1";
     Bot.env_uuid4 := "0f8fad5b";
     Bot.env_time_before := 1000;
     Bot.env_time_after := 1002;
     Bot.env_now_iso := "2024-05-01T10:00:00.000001";
     Bot.env_send := fun _ => Ok tt;
     Bot.env_download := Ok tt;
     Bot.env_download_writes_file := true;
     Bot.env_upload := Ok tt;
     Bot.env_presign := Ok "https://signed.example/a.bin";
     Bot.env_remove_ok := true |}.

(** The same surroundings, except that the object store refuses the upload
    with a [ClientError]. *)
Definition upload_refused_env : Bot.Env :=
  {| Bot.env_bucket := "bucket";
     Bot.env_region := "eu-central-1";
     Bot.env_uuid4 := "0f8fad5b";
     Bot.env_time_before := 1000;
     Bot.env_time_after := 1002;
     Bot.env_now_iso := "2024-05-01T10:00:00.000001";
     Bot.env_send := fun _ => Ok tt;
     Bot.env_download := Ok tt;
     Bot.env_download_writes_file := true;
     Bot.env_upload := Raise ClientError;
     Bot.env_presign := Ok "https://signed.example/a.bin";
     Bot.env_remove_ok := true |}.

(** The same surroundings, except that the download from Telegram raises
    and leaves no file. *)
Definition download_failed_env : Bot.Env :=
  {| Bot.env_bucket := "bucket";
     Bot.env_region := "eu-central-1";
     Bot.env_uuid4 := "0f8fad5b";
     Bot.env_time_before := 1000;
     Bot.env_time_after := 1002;
     Bot.env_now_iso := "2024-05-01T10:00:00.000001";
     Bot.env_send := fun _ => Ok tt;
     Bot.env_download := Raise (OtherError "connection lost");
     Bot.env_download_writes_file := false;
     Bot.env_upload := Ok tt;
     Bot.env_presign := Ok "https://signed.example/a.bin";
     Bot.env_remove_ok := true |}.

(** A message carrying one document [a.bin] of the given size, from user 7. *)
Definition document_message (size : Z) : Bot.Message :=
  {| Bot.document := Some {| Bot.media_file_size := size;
                             Bot.media_file_name := Some "a.bin" |};
     Bot.video := None;
     Bot.audio := None;
     Bot.photo := [];
     Bot.from_user_id := 7 |}.

Definition empty_world : Bot.World :=
  {| Bot.uploaded_files := []; Bot.staged := [] |}.

Definition GiB : Z := 1024 * 1024 * 1024.

(** Reading an event log.  [is_failed_transfer] recognises a download or
    an upload that raised; [puts_follow_upload seen evs] checks that every
    write to the file table comes after a successful upload of the object
    key it records ([seen] is the key of the last successful upload). *)
Definition is_failed_transfer (ev : Bot.Event) : bool :=
  match ev with
  | Bot.EvDownload _ (Raise _) => true
  | Bot.EvUpload _ _ (Raise _) => true
  | _ => false
  end.

Definition is_failed_download (ev : Bot.Event) : bool :=
  match ev with
  | Bot.EvDownload _ (Raise _) => true
  | _ => false
  end.

Definition is_upload (ev : Bot.Event) : bool :=
  match ev with
  | Bot.EvUpload _ _ _ => true
  | _ => false
  end.

Fixpoint puts_follow_upload (seen : option string) (evs : list Bot.Event) : bool :=
  match evs with
  | [] => true
  | Bot.EvUpload _ key (Ok _) :: rest => puts_follow_upload (Some key) rest
  | Bot.EvPut _ info :: rest =>
    match seen with
    | Some key => String.eqb key (Bot.object_key info) && puts_follow_upload seen rest
    | None => false
    end
  | _ :: rest => puts_follow_upload seen rest
  end.

(** The log of a rejected oversize file after the throttler was entered:
    the size-limit reply and, if sending it raised, what the [except]
    clause does. *)
Definition rejection_log (env : Bot.Env) : list Bot.Event :=
  Bot.EvReply Bot.TTooLarge (Bot.env_send env Bot.TTooLarge)
  :: match Bot.env_send env Bot.TTooLarge with
     | Ok _ => []
     | Raise e =>
       [Bot.EvLogError e;
        Bot.EvReply (Bot.TUploadError (Bot.exn_str e))
          (Bot.env_send env (Bot.TUploadError (Bot.exn_str e)))]
     end.

(** [day_not_before x y]: the day of [x] is not earlier than the day of
    [y], in the order of the sort key. *)
Definition day_not_before (x y : Web.FileEntry) : Prop :=
  String.ltb (Web.date x) (Web.date y) = false.

(** Two records of one user, and a table holding the first under an id. *)
Definition old_record : Bot.FileInfo :=
  {| Bot.original_name := "old.bin";
     Bot.object_key := "files/7/0f8fad5b_old.bin";
     Bot.download_url := "https://s3.eu-central-1.wasabisys.com/bucket/files/7/0f8fad5b_old.bin";
     Bot.file_size := 1536;
     Bot.upload_time := "2024-05-01T09:00:00.000001";
     Bot.user_id := 7 |}.

Definition new_record : Bot.FileInfo :=
  {| Bot.original_name := "new.bin";
     Bot.object_key := "files/7/0f8fad5b_new.bin";
     Bot.download_url := "https://s3.eu-central-1.wasabisys.com/bucket/files/7/0f8fad5b_new.bin";
     Bot.file_size := 2048;
     Bot.upload_time := "2024-05-01T17:30:00.000001";
     Bot.user_id := 7 |}.

Definition world_with_old : Bot.World :=
  {| Bot.uploaded_files := [("0f8fad5b", old_record)]; Bot.staged := [] |}.

(** A table with two uploads of the same day, the morning one first. *)
Definition same_day_table : PyDict.dict Bot.FileInfo :=
  [("0f8fad5b", old_record); ("7c9e6679", new_record)].

(** ** Vocabulary of the further properties *)

(** The keys of a table, in insertion order. *)
Definition keys {V} (d : PyDict.dict V) : list string := map fst d.

(** A progress bar with [filled] full cells and [empty] empty ones. *)
Definition bar_of (filled empty : nat) (percentage : Q) : string :=
  "[" ++ (repeat_str "█" filled ++ repeat_str "░" empty) ++ "] "
  ++ fmt_fixed 1 percentage ++ "%".

(** [filled] of [_create_progress_bar]: [int(percentage / 100 * length)]. *)
Definition cells_filled (percentage : Q) (length : Z) : Z :=
  py_int (fmul (fdiv percentage 100) (of_int length)).

(** The largest binary64 number below 15. *)
Definition just_below_15 : Q := (15 * 2 ^ 49 - 1) # (2 ^ 49).

(** [self.downloaded = current] on a download tracker. *)
Definition dp_record (dp : DownloadProgress.t) (current : Z) : DownloadProgress.t :=
  {| DownloadProgress.total_size := DownloadProgress.total_size dp;
     DownloadProgress.downloaded := current;
     DownloadProgress.start_time := DownloadProgress.start_time dp;
     DownloadProgress.last_update := DownloadProgress.last_update dp |}.

(** The same, with the edit time set to [now]. *)
Definition dp_published (dp : DownloadProgress.t) (current : Z) (now : Q)
  : DownloadProgress.t :=
  {| DownloadProgress.total_size := DownloadProgress.total_size dp;
     DownloadProgress.downloaded := current;
     DownloadProgress.start_time := DownloadProgress.start_time dp;
     DownloadProgress.last_update := now |}.

(** Every record of the table has a size between zero and the limit. *)
Definition sizes_within_limit (table : PyDict.dict Bot.FileInfo) : Prop :=
  Forall (fun item => 0 <= Bot.file_size (snd item) <= Bot.max_file_size) table.

(** Reading the handler's log: the reply of the [except] clause, a send
    that raised, and the events the [except] clause produces. *)
Definition is_error_reply (ev : Bot.Event) : bool :=
  match ev with
  | Bot.EvReply (Bot.TUploadError _) _ => true
  | _ => false
  end.

Definition is_failed_send (ev : Bot.Event) : bool :=
  match ev with
  | Bot.EvReply _ (Raise _) => true
  | Bot.EvEdit _ (Raise _) => true
  | _ => false
  end.

Definition is_report (ev : Bot.Event) : bool :=
  match ev with
  | Bot.EvLogError _ => true
  | Bot.EvReply (Bot.TUploadError _) _ => true
  | _ => false
  end.

(** After a send that raised, the log holds nothing but reports. *)
Fixpoint quiet_after_failed_send (evs : list Bot.Event) : bool :=
  match evs with
  | [] => true
  | ev :: rest =>
    (if is_failed_send ev then forallb is_report rest else true)
    && quiet_after_failed_send rest
  end.

(** The staging path and the object key the handler derives for a file. *)
Definition name_of (env : Bot.Env) (file_info : Bot.Media) : string :=
  match Bot.media_file_name file_info with
  | Some n => n
  | None => "file_" ++ Bot.env_uuid4 env
  end.

Definition staging_path (env : Bot.Env) (file_info : Bot.Media) : string :=
  "downloads/" ++ Bot.env_uuid4 env ++ "_" ++ name_of env file_info.



(** One invocation after the other, each with its own surroundings and
    message, on the state the previous one left. *)
Definition relay_all (runs : list (Bot.Env * Bot.Message)) (w : Bot.World)
  : Bot.World :=
  fold_left
    (fun acc run => Bot.world_of (Bot.handle_file_upload (fst run) (snd run) acc))
    runs w.

(** A message without any attachment. *)
Definition empty_message : Bot.Message :=
  {| Bot.document := None; Bot.video := None; Bot.audio := None;
     Bot.photo := []; Bot.from_user_id := 7 |}.

(** Surroundings in which publishing the finished download raises. *)
Definition is_download_complete (t : Bot.Text) : bool :=
  match t with Bot.TDownloadComplete _ _ _ _ => true | _ => false end.

Definition edit_refused_env : Bot.Env :=
  {| Bot.env_bucket := "bucket";
     Bot.env_region := "eu-central-1";
     Bot.env_uuid4 := "0f8fad5b";
     Bot.env_time_before := 1000;
     Bot.env_time_after := 1002;
     Bot.env_now_iso := "2024-05-01T10:00:00.000001";
     Bot.env_send := fun t => if is_download_complete t
                              then Raise (OtherError "FLOOD_WAIT") else Ok tt;
     Bot.env_download := Ok tt;
     Bot.env_download_writes_file := true;
     Bot.env_upload := Ok tt;
     Bot.env_presign := Ok "https://signed.example/a.bin";
     Bot.env_remove_ok := true |}.

(** The attachment of [document_message (10 * 1024 * 1024)]. *)
Definition sample_document : Bot.Media :=
  {| Bot.media_file_size := 10 * 1024 * 1024;
     Bot.media_file_name := Some "a.bin" |}.

(** Unfolding the command monad. *)
Ltac step_command :=
  cbv beta iota zeta delta
    [Commands.handle_download_command Commands.handle_list_files
     Commands.get_download_link Commands.bind Commands.try_except
     Commands.ret Commands.lift Commands.emit Commands.reply_text
     fst snd app].

(** The number [_format_size] prints for [n], in hundredths. *)
Definition printed_hundredths (n : Z) : Z :=
  round_half_even ((n # Z.to_pos (1024 ^ floor_log1024 n)) * 100).

(** A number of hundredths as [_format_size] writes it: the integer part,
    a point, and one or two decimals. *)
Definition hundredths_string (r : Z) : string :=
  str_nat (r / 100) ++ "." ++
    (if r mod 100 mod 10 =? 0 then str_nat (r mod 100 / 10)
     else zero_pad 2 (str_nat (r mod 100))).

(** Surroundings of a command in which every send succeeds and the object
    store signs every key. *)
Definition command_env : Commands.Env :=
  {| Commands.env_send := fun _ => Ok tt;
     Commands.env_presign := fun key _ => Ok ("https://signed.example/" ++ key) |}.

(** An environment with every required variable set. *)
Definition full_environment (var : string) : option string := Some "value".

Module PT := ProgressTracker.
Module DP := DownloadProgress.

(** ** Proof automation for the handler *)

(** Unfold the monad and the handler's helpers, leaving strings folded. *)
Ltac step_run :=
  cbv beta iota zeta delta
    [Bot.handle_file_upload Bot.bind Bot.try_except Bot.reply_text
     Bot.edit_text Bot.emit Bot.lift Bot.ret Bot.raise Bot.get_world
     Bot.put_world Bot.turbo_download_media Bot.upload_file
     Bot.get_download_link Bot.registry_put Bot.remove_quietly
     Bot.result_of Bot.world_of Bot.events_of fst snd app
     Bot.uploaded_files Bot.staged].

(** Case analysis on the innermost undecided test of the goal. *)
Ltac split_scrutinee :=
  match goal with
  | |- context [match ?x with _ => _ end] =>
    lazymatch x with
    | context [match _ with _ => _ end] => fail
    | _ => destruct x eqn:?
    end
  end.

Ltac pick_member := repeat first [left; reflexivity | right].

(* ===================================================================== *)
(** * Properties *)
(* ===================================================================== *)

(** ** Rounding and printing respect equality of rationals *)

Lemma Qle_bool_0_comp x y : (x == y)%Q -> Qle_bool 0 x = Qle_bool 0 y.
Proof. intros E. apply Qleb_comp; [reflexivity | exact E]. Qed.

#[local] Instance py_int_comp : Proper (Qeq ==> eq) py_int.
Proof.
  intros x y E. unfold py_int.
  rewrite (Qle_bool_0_comp _ _ E), (Qfloor_comp _ _ E), (Qceiling_comp _ _ E).
  reflexivity.
Qed.

#[local] Instance round_half_even_comp : Proper (Qeq ==> eq) round_half_even.
Proof.
  intros x y E. unfold round_half_even.
  assert (E2 : (x * 2 == y * 2)%Q) by (rewrite E; reflexivity).
  rewrite (Qfloor_comp _ _ E), (Qfloor_comp _ _ E2).
  rewrite (Qeqb_comp _ _ E2 _ _ (Qeq_refl _)).
  reflexivity.
Qed.

#[local] Instance fmt_fixed_comp d : Proper (Qeq ==> eq) (fmt_fixed d).
Proof.
  intros x y E. unfold fmt_fixed.
  assert (E2 : (x * inject_Z (10 ^ Z.of_nat d) == y * inject_Z (10 ^ Z.of_nat d))%Q)
    by (rewrite E; reflexivity).
  rewrite (round_half_even_comp _ _ E2), (Qle_bool_0_comp _ _ E).
  reflexivity.
Qed.

#[local] Instance format_time_comp : Proper (Qeq ==> eq) Fmt.format_time.
Proof.
  intros x y E. unfold Fmt.format_time.
  assert (E2 : (x / 60 == y / 60)%Q) by (rewrite E; reflexivity).
  rewrite (Qle_bool_0_comp _ _ E), (Qfloor_comp _ _ E2).
  assert (E3 : (x - inject_Z (60 * Qfloor (y / 60)) ==
                y - inject_Z (60 * Qfloor (y / 60)))%Q) by (rewrite E; reflexivity).
  rewrite (py_int_comp _ _ E3).
  reflexivity.
Qed.

Lemma Qgt_bool_true x y : Qgt_bool x y = true <-> (y < x)%Q.
Proof.
  unfold Qgt_bool. rewrite negb_true_iff.
  split; intros H.
  - apply Qnot_le_lt. intros L. apply Qle_bool_iff in L. congruence.
  - destruct (Qle_bool x y) eqn:E; [|reflexivity].
    apply Qle_bool_iff in E. exfalso. exact (Qlt_not_le _ _ H E).
Qed.

Lemma Qgt_bool_false x y : Qgt_bool x y = false <-> (x <= y)%Q.
Proof.
  unfold Qgt_bool. rewrite negb_false_iff. apply Qle_bool_iff.
Qed.

(** ** Binary64 rounding *)

Lemma fl_comp x y : (x == y)%Q -> fl x = fl y.
Proof. intros E. unfold fl. rewrite (Qred_complete _ _ E). reflexivity. Qed.

Lemma pow2_pos e : (0 < pow2 e)%Q.
Proof. unfold pow2. apply Qpower_0_lt. reflexivity. Qed.

Lemma pow2_add a b : (pow2 (a + b) == pow2 a * pow2 b)%Q.
Proof. unfold pow2. apply Qpower_plus. discriminate. Qed.

Lemma pow2_le a b : a <= b -> (pow2 a <= pow2 b)%Q.
Proof. intros H. unfold pow2. apply Qpower_le_compat_l; [exact H|]. discriminate. Qed.

Lemma pow2_nonneg_Z n : 0 <= n -> (pow2 n == inject_Z (2 ^ n))%Q.
Proof. intros H. unfold pow2. rewrite Zpower_Qpower by exact H. reflexivity. Qed.

Lemma pow2_sub a b :
  0 <= a -> 0 <= b -> (pow2 (a - b) == inject_Z (2 ^ a) / inject_Z (2 ^ b))%Q.
Proof.
  intros Ha Hb. replace (a - b) with (a + - b) by lia.
  rewrite pow2_add, (pow2_nonneg_Z a Ha). unfold pow2 at 1.
  rewrite Qpower_opp. fold (pow2 b). rewrite (pow2_nonneg_Z b Hb). reflexivity.
Qed.

(** A positive rational lies between the powers of two its bit lengths
    give. *)
Lemma log2_bounds q :
  (0 < q)%Q ->
  (pow2 (Z.log2 (Qnum q) - Z.log2 (Zpos (Qden q)) - 1) <= q)%Q
  /\ (q < pow2 (Z.log2 (Qnum q) - Z.log2 (Zpos (Qden q)) + 1))%Q.
Proof.
  destruct q as [a b]. intros Hq.
  assert (Ha : 0 < a) by (unfold Qlt in Hq; simpl in Hq; lia).
  cbn [Qnum Qden].
  set (la := Z.log2 a). set (lb := Z.log2 (Z.pos b)).
  assert (Hla : 0 <= la) by apply Z.log2_nonneg.
  assert (Hlb : 0 <= lb) by apply Z.log2_nonneg.
  destruct (Z.log2_spec a Ha) as [A1 A2]. fold la in A1, A2.
  destruct (Z.log2_spec (Z.pos b) ltac:(lia)) as [B1 B2]. fold lb in B1, B2.
  assert (P1 : 0 < 2 ^ la) by (apply Z.pow_pos_nonneg; lia).
  assert (P2 : 0 < 2 ^ lb) by (apply Z.pow_pos_nonneg; lia).
  assert (P3 : 0 < 2 ^ Z.succ la) by (apply Z.pow_pos_nonneg; lia).
  assert (P4 : 0 < 2 ^ Z.succ lb) by (apply Z.pow_pos_nonneg; lia).
  split.
  - replace (la - lb - 1) with (la - Z.succ lb) by lia.
    rewrite pow2_sub by lia.
    apply Qle_shift_div_r; [unfold Qlt; simpl; lia|].
    unfold Qle, Qmult, inject_Z. simpl. nia.
  - replace (la - lb + 1) with (Z.succ la - lb) by lia.
    rewrite pow2_sub by lia.
    apply Qlt_shift_div_l; [unfold Qlt; simpl; lia|].
    unfold Qlt, Qmult, inject_Z. simpl. nia.
Qed.

Lemma ilog2_spec q :
  (0 < q)%Q -> (pow2 (ilog2 q) <= q)%Q /\ (q < pow2 (ilog2 q + 1))%Q.
Proof.
  intros Hq. destruct (log2_bounds q Hq) as [Hlo Hhi]. unfold ilog2.
  destruct (Qle_bool _ q) eqn:E.
  - apply Qle_bool_iff in E. split; assumption.
  - split; [exact Hlo|].
    replace (Z.log2 (Qnum q) - Z.log2 (Z.pos (Qden q)) - 1 + 1)
      with (Z.log2 (Qnum q) - Z.log2 (Z.pos (Qden q))) by lia.
    apply Qnot_le_lt. intros H. apply Qle_bool_iff in H. congruence.
Qed.

Lemma ilog2_mono x y : (0 < x)%Q -> (x <= y)%Q -> ilog2 x <= ilog2 y.
Proof.
  intros Hx Hxy.
  assert (Hy : (0 < y)%Q) by (eapply Qlt_le_trans; eassumption).
  destruct (ilog2_spec x Hx) as [X1 _]. destruct (ilog2_spec y Hy) as [_ Y2].
  destruct (Z.le_gt_cases (ilog2 x) (ilog2 y)) as [H|H]; [exact H|].
  exfalso. assert (Hp : (pow2 (ilog2 y + 1) <= pow2 (ilog2 x))%Q) by (apply pow2_le; lia).
  apply (Qlt_irrefl y).
  eapply Qlt_le_trans; [exact Y2|].
  eapply Qle_trans; [exact Hp|]. eapply Qle_trans; eassumption.
Qed.

Lemma round_half_even_bounds x :
  Qfloor x <= round_half_even x <= Qfloor x + 1.
Proof.
  unfold round_half_even.
  destruct (Qfloor (x * 2) - 2 * Qfloor x =? 0); [lia|].
  destruct (Qeq_bool _ _); [destruct (Z.even _)|]; lia.
Qed.

Lemma round_half_even_le_Z x n :
  (x <= inject_Z n)%Q -> round_half_even x <= n.
Proof.
  intros H. pose proof (round_half_even_bounds x) as [_ Hu].
  pose proof (Qfloor_resp_le _ _ H) as Hf. rewrite Qfloor_Z in Hf.
  destruct (Z.eq_dec (Qfloor x) n) as [E|E]; [|lia].
  (* floor x = n and x <= n: x is the integer n *)
  assert (Hx : (x == inject_Z n)%Q).
  { apply Qle_antisym; [exact H|]. rewrite <- E. apply Qfloor_le. }
  rewrite (round_half_even_comp _ _ Hx).
  unfold round_half_even. rewrite Qfloor_Z.
  assert (E2 : Qfloor (inject_Z n * 2) = 2 * n).
  { rewrite <- (Qfloor_Z (2 * n)). apply Qfloor_comp.
    unfold Qeq, Qmult, inject_Z. cbn [Qnum Qden]. lia. }
  rewrite E2, Z.sub_diag. cbn [Z.eqb]. lia.
Qed.

Lemma round_half_even_ge_Z x n :
  (inject_Z n <= x)%Q -> n <= round_half_even x.
Proof.
  intros H. pose proof (round_half_even_bounds x) as [Hl _].
  pose proof (Qfloor_resp_le _ _ H) as Hf. rewrite Qfloor_Z in Hf. lia.
Qed.

Lemma Qfloor_twice x : 2 * Qfloor x <= Qfloor (x * 2) <= 2 * Qfloor x + 1.
Proof.
  destruct x as [a b]. unfold Qfloor, Qmult. cbn [Qnum Qden].
  rewrite Pos.mul_1_r.
  pose proof (Z.div_mod a (Z.pos b) ltac:(lia)) as Hd.
  pose proof (Z.mod_pos_bound a (Z.pos b) ltac:(lia)) as Hm.
  set (q := a / Z.pos b) in *. set (r := a mod Z.pos b) in *.
  set (p := Z.pos b) in *.
  split.
  - apply Z.div_le_lower_bound; [lia|]. nia.
  - assert (a * 2 / p < 2 * q + 2); [|lia].
    apply Z.div_lt_upper_bound; [lia|]. nia.
Qed.

Lemma round_half_even_mono x y :
  (x <= y)%Q -> round_half_even x <= round_half_even y.
Proof.
  intros H.
  pose proof (Qfloor_resp_le _ _ H) as Hf.
  pose proof (round_half_even_bounds x) as [_ Hxu].
  pose proof (round_half_even_bounds y) as [Hyl _].
  destruct (Z.eq_dec (Qfloor x) (Qfloor y)) as [E|E]; [|lia].
  assert (H2 : (x * 2 <= y * 2)%Q).
  { apply Qmult_le_compat_r; [exact H|discriminate]. }
  pose proof (Qfloor_resp_le _ _ H2) as Hf2.
  pose proof (Qfloor_twice x) as Tx. pose proof (Qfloor_twice y) as Ty.
  unfold round_half_even. rewrite <- E.
  destruct (Z.eqb_spec (Qfloor (x * 2) - 2 * Qfloor x) 0) as [Ex|Ex].
  - destruct (Qfloor (y * 2) - 2 * Qfloor x =? 0); [lia|].
    destruct (Qeq_bool _ _); [destruct (Z.even _)|]; lia.
  - destruct (Z.eqb_spec (Qfloor (y * 2) - 2 * Qfloor x) 0) as [Ey|Ey]; [lia|].
    destruct (Qeq_bool (y * 2) (inject_Z (2 * Qfloor x + 1))) eqn:Ty2.
    + (* y is a tie, so x is the same tie *)
      apply Qeq_bool_iff in Ty2.
      assert (Tx2 : (x * 2 == inject_Z (2 * Qfloor x + 1))%Q).
      { apply Qle_antisym.
        - rewrite <- Ty2. exact H2.
        - replace (2 * Qfloor x + 1) with (Qfloor (x * 2)) by lia.
          apply Qfloor_le. }
      rewrite (proj2 (Qeq_bool_iff _ _) Tx2). lia.
    + destruct (Qeq_bool (x * 2) _); [destruct (Z.even _)|]; lia.
Qed.

Lemma fl_pos_bounds q :
  (0 < q)%Q ->
  (pow2 (ilog2 q) <= fl_pos q)%Q /\ (fl_pos q <= pow2 (ilog2 q + 1))%Q.
Proof.
  intros Hq. destruct (ilog2_spec q Hq) as [Hlo Hhi].
  unfold fl_pos. set (e := ilog2 q) in *.
  assert (Hs1 : (inject_Z (2 ^ 52) <= q * pow2 (52 - e))%Q).
  { rewrite <- pow2_nonneg_Z by lia.
    replace 52 with (e + (52 - e)) at 1 by lia. rewrite pow2_add.
    apply Qmult_le_compat_r; [exact Hlo|]. apply Qlt_le_weak, pow2_pos. }
  assert (Hs2 : (q * pow2 (52 - e) <= inject_Z (2 ^ 53))%Q).
  { rewrite <- pow2_nonneg_Z by lia.
    replace 53 with (e + 1 + (52 - e)) at 1 by lia. rewrite pow2_add.
    apply Qmult_le_compat_r; [apply Qlt_le_weak; exact Hhi|].
    apply Qlt_le_weak, pow2_pos. }
  pose proof (round_half_even_ge_Z _ _ Hs1) as M1.
  pose proof (round_half_even_le_Z _ _ Hs2) as M2.
  split.
  - replace e with (52 + (e - 52)) at 1 by lia. rewrite pow2_add.
    apply Qmult_le_compat_r; [|apply Qlt_le_weak, pow2_pos].
    rewrite (pow2_nonneg_Z 52) by lia. rewrite <- Zle_Qle. exact M1.
  - replace (e + 1) with (53 + (e - 52)) by lia. rewrite pow2_add.
    apply Qmult_le_compat_r; [|apply Qlt_le_weak, pow2_pos].
    rewrite (pow2_nonneg_Z 53) by lia. rewrite <- Zle_Qle. exact M2.
Qed.

Lemma fl_pos_positive q : (0 < q)%Q -> (0 < fl_pos q)%Q.
Proof.
  intros Hq. eapply Qlt_le_trans; [apply (pow2_pos (ilog2 q))|].
  apply fl_pos_bounds. exact Hq.
Qed.

Lemma fl_pos_mono x y : (0 < x)%Q -> (x <= y)%Q -> (fl_pos x <= fl_pos y)%Q.
Proof.
  intros Hx Hxy.
  assert (Hy : (0 < y)%Q) by (eapply Qlt_le_trans; eassumption).
  pose proof (ilog2_mono x y Hx Hxy) as He.
  destruct (Z.eq_dec (ilog2 x) (ilog2 y)) as [E|E].
  - unfold fl_pos. rewrite E.
    apply Qmult_le_compat_r; [|apply Qlt_le_weak, pow2_pos].
    rewrite <- Zle_Qle. apply round_half_even_mono.
    apply Qmult_le_compat_r; [exact Hxy|apply Qlt_le_weak, pow2_pos].
  - eapply Qle_trans; [apply (fl_pos_bounds x Hx)|].
    eapply Qle_trans; [|apply (fl_pos_bounds y Hy)].
    apply pow2_le. lia.
Qed.

Lemma Qred_sign q :
  (Qnum (Qred q) = 0%Z <-> (q == 0)%Q)
  /\ ((0 < Qnum (Qred q))%Z <-> (0 < q)%Q)
  /\ ((Qnum (Qred q) < 0)%Z <-> (q < 0)%Q).
Proof.
  pose proof (Qred_correct q) as E.
  assert (H : forall r : Q,
            (Qnum r = 0%Z <-> (r == 0)%Q)
            /\ ((0 < Qnum r)%Z <-> (0 < r)%Q)
            /\ ((Qnum r < 0)%Z <-> (r < 0)%Q)).
  { intros [a b]. unfold Qeq, Qlt. cbn [Qnum Qden]. repeat split; lia. }
  destruct (H (Qred q)) as (H1 & H2 & H3).
  rewrite H1, H2, H3, E. repeat split; auto.
Qed.

Lemma fl_sign x :
  ((0 < x)%Q -> (0 < fl x)%Q)
  /\ ((x < 0)%Q -> (fl x < 0)%Q)
  /\ ((x == 0)%Q -> fl x = 0%Q).
Proof.
  destruct (Qred_sign x) as (S0 & Sp & Sn). unfold fl.
  split; [|split]; intros H.
  - assert (Hr : (0 < Qred x)%Q) by (rewrite Qred_correct; exact H).
    apply Sp in H. destruct (Qnum (Qred x)) eqn:E; try lia.
    rewrite Qred_correct. apply fl_pos_positive. exact Hr.
  - assert (Hr : (Qred x < 0)%Q) by (rewrite Qred_correct; exact H).
    apply Sn in H. destruct (Qnum (Qred x)) eqn:E; try lia.
    rewrite Qred_correct.
    assert (Hp : (0 < fl_pos (- Qred x))%Q).
    { apply fl_pos_positive. apply (Qopp_lt_compat (Qred x) 0) in Hr. exact Hr. }
    apply (Qopp_lt_compat 0 (fl_pos (- Qred x))) in Hp. exact Hp.
  - apply S0 in H. rewrite H. reflexivity.
Qed.

Lemma fl_nonneg x : (0 <= x)%Q -> (0 <= fl x)%Q.
Proof.
  intros H. destruct (Qlt_le_dec 0 x) as [Hp|Hn].
  - apply Qlt_le_weak. apply fl_sign. exact Hp.
  - rewrite (proj2 (proj2 (fl_sign x))); [apply Qle_refl|].
    apply Qle_antisym; assumption.
Qed.

Lemma fl_nonpos x : (x <= 0)%Q -> (fl x <= 0)%Q.
Proof.
  intros H. destruct (Qlt_le_dec x 0) as [Hn|Hp].
  - apply Qlt_le_weak. apply fl_sign. exact Hn.
  - rewrite (proj2 (proj2 (fl_sign x))); [apply Qle_refl|].
    apply Qle_antisym; assumption.
Qed.


Lemma fl_mono x y : (x <= y)%Q -> (fl x <= fl y)%Q.
Proof.
  intros H.
  destruct (Qlt_le_dec 0 x) as [Hx|Hx].
  - (* both positive *)
    assert (Hy : (0 < y)%Q) by (eapply Qlt_le_trans; eassumption).
    assert (Hrx : (0 < Qred x)%Q) by (rewrite Qred_correct; exact Hx).
    destruct (Qred_sign x) as (_ & Spx & _). destruct (Qred_sign y) as (_ & Spy & _).
    apply Spx in Hx. apply Spy in Hy. unfold fl.
    destruct (Qnum (Qred x)) eqn:Ex; try lia.
    destruct (Qnum (Qred y)) eqn:Ey; try lia.
    rewrite (Qred_correct (fl_pos (Qred x))), (Qred_correct (fl_pos (Qred y))).
    apply fl_pos_mono; [exact Hrx|].
    rewrite (Qred_correct x), (Qred_correct y). exact H.
  - destruct (Qlt_le_dec y 0) as [Hy|Hy].
    + (* both negative *)
      assert (Hx' : (x < 0)%Q) by (apply Qle_lt_trans with y; assumption).
      assert (Hry : (0 < - Qred y)%Q).
      { assert (Hy2 : (Qred y < 0)%Q) by (rewrite Qred_correct; exact Hy).
        apply (Qopp_lt_compat (Qred y) 0) in Hy2. exact Hy2. }
      destruct (Qred_sign x) as (_ & _ & Snx). destruct (Qred_sign y) as (_ & _ & Sny).
      pose proof (proj2 Snx Hx') as Nx. pose proof (proj2 Sny Hy) as Ny. unfold fl.
      destruct (Qnum (Qred x)) eqn:Ex; try lia.
      destruct (Qnum (Qred y)) eqn:Ey; try lia.
      rewrite (Qred_correct (- fl_pos (- Qred x))), (Qred_correct (- fl_pos (- Qred y))).
      apply Qopp_le_compat. apply fl_pos_mono; [exact Hry|].
      rewrite (Qred_correct x), (Qred_correct y). apply Qopp_le_compat. exact H.
    + (* x <= 0 <= y *)
      apply Qle_trans with 0%Q; [apply fl_nonpos; exact Hx|apply fl_nonneg; exact Hy].
Qed.

Lemma create_progress_bar_comp x y l :
  (x == y)%Q -> Fmt.create_progress_bar x l = Fmt.create_progress_bar y l.
Proof.
  intros E. unfold Fmt.create_progress_bar, fdiv.
  assert (E2 : (x / 100 == y / 100)%Q) by (rewrite E; reflexivity).
  rewrite (fl_comp _ _ E2), (fmt_fixed_comp 1 _ _ E).
  reflexivity.
Qed.

(** The percentage of a finished transfer is exactly 100. *)
Lemma percentage_complete n : 0 < n -> fmul (true_div n n) 100 = 100%Q.
Proof.
  intros H. unfold true_div.
  assert (E : (inject_Z n / inject_Z n == 1)%Q).
  { unfold Qdiv. rewrite Qmult_inv_r; [reflexivity|].
    unfold Qeq; simpl. lia. }
  rewrite (fl_comp _ _ E). vm_compute. reflexivity.
Qed.

(** ** The size formatter *)

Lemma log1024_from_spec fuel : forall i n,
  1 <= n < 2 ^ (Z.of_nat fuel + 1) ->
  exists k, 0 <= k /\ log1024_from fuel i n = i + k
            /\ 1024 ^ k <= n < 1024 ^ (k + 1).
Proof.
  induction fuel as [|fuel IH]; intros i n Hn.
  - exists 0. simpl in *. split; [lia|]. split; lia.
  - cbn [log1024_from]. destruct (Z.ltb_spec n 1024) as [Hlt|Hge].
    + exists 0. simpl. split; [lia|]. split; lia.
    + assert (Hq : 1 <= n / 1024 < 2 ^ (Z.of_nat fuel + 1)).
      { split.
        - apply Z.div_le_lower_bound; lia.
        - apply Z.div_lt_upper_bound; [lia|].
          replace (Z.of_nat (S fuel) + 1) with (Z.succ (Z.of_nat fuel + 1)) in Hn by lia.
          rewrite Z.pow_succ_r in Hn by lia. lia. }
      destruct (IH (i + 1) (n / 1024) Hq) as (k & Hk & Hres & Hlo & Hhi).
      exists (k + 1). split; [lia|]. split; [lia|].
      replace (k + 1 + 1) with (Z.succ (k + 1)) by lia.
      replace (k + 1) with (Z.succ k) in * by lia.
      rewrite !Z.pow_succ_r by lia. rewrite !Z.pow_succ_r in Hhi by lia.
      pose proof (Z.mul_div_le n 1024 ltac:(lia)).
      pose proof (Z.mul_succ_div_gt n 1024 ltac:(lia)).
      split; lia.
Qed.

Lemma floor_log1024_spec n :
  1 <= n ->
  0 <= floor_log1024 n /\
  1024 ^ floor_log1024 n <= n < 1024 ^ (floor_log1024 n + 1).
Proof.
  intros Hn. unfold floor_log1024.
  assert (Hb : 1 <= n < 2 ^ (Z.of_nat (Z.to_nat (Z.log2 n)) + 1)).
  { split; [lia|]. rewrite Z2Nat.id by apply Z.log2_nonneg.
    pose proof (Z.log2_spec n ltac:(lia)) as [_ H].
    replace (Z.log2 n + 1) with (Z.succ (Z.log2 n)) by lia. exact H. }
  destruct (log1024_from_spec _ 0 n Hb) as (k & Hk & -> & Hlo & Hhi).
  simpl. split; [lia|]. split; assumption.
Qed.

Lemma floor_log1024_small n :
  1 <= n < 1024 ^ 4 -> 0 <= floor_log1024 n <= 3.
Proof.
  intros [H1 H2]. destruct (floor_log1024_spec n H1) as (H0 & Hlo & _).
  split; [assumption|].
  destruct (Z.le_gt_cases 4 (floor_log1024 n)) as [Hge|]; [|lia].
  pose proof (Z.pow_le_mono_r 1024 4 (floor_log1024 n) ltac:(lia) Hge). lia.
Qed.

Lemma floor_log1024_large n :
  1024 ^ 4 <= n -> 4 <= floor_log1024 n.
Proof.
  intros H. assert (H1 : 1 <= n) by (change (1024 ^ 4) with 1099511627776 in H; lia).
  destruct (floor_log1024_spec n H1) as (H0 & _ & Hhi).
  destruct (Z.le_gt_cases 4 (floor_log1024 n)) as [|Hlt]; [assumption|].
  pose proof (Z.pow_le_mono_r 1024 (floor_log1024 n + 1) 4 ltac:(lia) ltac:(lia)). lia.
Qed.

Lemma format_size_small n :
  0 <= n < 1024 ^ 4 ->
  exists unit, nth_error Fmt.size_names (Z.to_nat (floor_log1024 n)) = Some unit /\
    (n = 0 \/
     Fmt.format_size n =
       Ok (str_round2 (n # Z.to_pos (1024 ^ floor_log1024 n)) ++ " " ++ unit)).
Proof.
  intros [H0 H4]. destruct (Z.eq_dec n 0) as [->|Hnz].
  - exists "B". split; [reflexivity|]. now left.
  - pose proof (floor_log1024_small n ltac:(lia)) as Hi.
    assert (Hc : floor_log1024 n = 0 \/ floor_log1024 n = 1 \/
                 floor_log1024 n = 2 \/ floor_log1024 n = 3) by lia.
    unfold Fmt.format_size.
    destruct (Z.eqb_spec n 0); [lia|]. destruct (Z.ltb_spec n 0); [lia|].
    destruct Hc as [E|[E|[E|E]]]; rewrite E; cbn [Z.to_nat nth_error Fmt.size_names];
      eexists; (split; [reflexivity|]); right; reflexivity.
Qed.

Lemma format_size_returns n :
  0 <= n < 1024 ^ 4 -> exists s, Fmt.format_size n = Ok s.
Proof.
  intros H. destruct (format_size_small n H) as (u & _ & [->|E]).
  - exists "0 B". reflexivity.
  - eexists. exact E.
Qed.

Lemma format_size_raises n :
  1024 ^ 4 <= n -> Fmt.format_size n = Raise IndexError.
Proof.
  intros H. pose proof (floor_log1024_large n H) as Hi.
  assert (1 <= n) by (change (1024 ^ 4) with 1099511627776 in H; lia).
  unfold Fmt.format_size.
  destruct (Z.eqb_spec n 0); [lia|]. destruct (Z.ltb_spec n 0); [lia|].
  assert (Hn : nth_error Fmt.size_names (Z.to_nat (floor_log1024 n)) = None).
  { apply nth_error_None. simpl. lia. }
  rewrite Hn. reflexivity.
Qed.

(** ** The upload tracker *)


Lemma call_bytes tr d now :
  PT.bytes_transferred (fst (PT.call tr d now)) = PT.bytes_transferred tr + d.
Proof.
  unfold PT.call. destruct (PT.due _ _); [destruct (PT.render _ _)|]; reflexivity.
Qed.

Lemma call_total tr d now :
  PT.total_size (fst (PT.call tr d now)) = PT.total_size tr.
Proof.
  unfold PT.call. destruct (PT.due _ _); [destruct (PT.render _ _)|]; reflexivity.
Qed.

Lemma feed_snoc tr calls c :
  PT.feed tr (calls ++ [c]) = fst (PT.call (PT.feed tr calls) (fst c) (snd c)).
Proof. unfold PT.feed. rewrite fold_left_app. reflexivity. Qed.

Lemma sum_deltas_snoc calls c :
  sum_deltas (calls ++ [c]) = sum_deltas calls + fst c.
Proof.
  unfold sum_deltas. induction calls as [|a l IH]; simpl in *; lia.
Qed.

Lemma feed_bytes tr calls :
  PT.bytes_transferred (PT.feed tr calls) = PT.bytes_transferred tr + sum_deltas calls.
Proof.
  induction calls as [|c l IH] using rev_ind.
  - unfold sum_deltas. simpl. lia.
  - rewrite feed_snoc, call_bytes, IH, sum_deltas_snoc. lia.
Qed.

Lemma feed_total tr calls :
  PT.total_size (PT.feed tr calls) = PT.total_size tr.
Proof.
  induction calls as [|c l IH] using rev_ind.
  - reflexivity.
  - rewrite feed_snoc, call_total, IH. reflexivity.
Qed.

Lemma sum_deltas_nonneg calls : nonneg_deltas calls -> 0 <= sum_deltas calls.
Proof.
  unfold sum_deltas. induction 1 as [|c l Hc Hl IH]; simpl; lia.
Qed.

Lemma sum_deltas_firstn k calls :
  nonneg_deltas calls -> sum_deltas (firstn k calls) <= sum_deltas calls.
Proof.
  intros H. revert k. induction H as [|c l Hc Hl IH]; intros [|k]; simpl.
  - lia.
  - lia.
  - pose proof (sum_deltas_nonneg l Hl). unfold sum_deltas in *. simpl. lia.
  - specialize (IH k). unfold sum_deltas in *. simpl. lia.
Qed.

Lemma render_returns tr now :
  0 < PT.total_size tr < 1024 ^ 4 ->
  0 <= PT.bytes_transferred tr < 1024 ^ 4 ->
  exists text, PT.render tr now = Ok text.
Proof.
  intros Ht Hb. unfold PT.render.
  destruct (Z.eqb_spec (PT.total_size tr) 0); [lia|].
  destruct (PT.speed_eta _ _ _) as [speed eta].
  destruct (format_size_returns _ Hb) as [s1 ->].
  destruct (format_size_returns (PT.total_size tr) ltac:(lia)) as [s2 ->].
  eexists. reflexivity.
Qed.

Lemma render_complete tr now :
  0 < PT.total_size tr < 1024 ^ 4 ->
  PT.bytes_transferred tr = PT.total_size tr ->
  exists s speed eta,
    Fmt.format_size (PT.total_size tr) = Ok s /\
    PT.render tr now =
      Ok (upload_text {| st_bar := full_bar; st_pct := "100.0";
                         st_done := s; st_total := s;
                         st_speed := speed; st_eta := eta |}).
Proof.
  intros Ht Hb. unfold PT.render.
  destruct (Z.eqb_spec (PT.total_size tr) 0); [lia|].
  destruct (PT.speed_eta _ _ _) as [speed eta].
  rewrite Hb.
  destruct (format_size_returns (PT.total_size tr) ltac:(lia)) as [s Hs].
  rewrite Hs.
  rewrite (percentage_complete (PT.total_size tr)) by lia.
  exists s, (fmt_fixed 2 speed), eta. split; reflexivity.
Qed.

Lemma all_ok_bounded calls : forall tr,
  0 < PT.total_size tr < 1024 ^ 4 ->
  0 <= PT.bytes_transferred tr ->
  nonneg_deltas calls ->
  PT.bytes_transferred tr + sum_deltas calls < 1024 ^ 4 ->
  PT.all_ok tr calls = true.
Proof.
  induction calls as [|c l IH]; intros tr Ht Hb Hn Hs.
  - reflexivity.
  - inversion Hn as [|? ? Hc Hl]; subst.
    pose proof (sum_deltas_nonneg l Hl) as Hl0.
    assert (Hsum : sum_deltas (c :: l) = fst c + sum_deltas l) by reflexivity.
    cbn [PT.all_ok].
    pose proof (call_bytes tr (fst c) (snd c)) as Eb.
    pose proof (call_total tr (fst c) (snd c)) as Et.
    destruct (PT.call tr (fst c) (snd c)) as [tr' r] eqn:Ec.
    simpl in Eb, Et.
    assert (Hr : r = Ok tt).
    { unfold PT.call in Ec. destruct (PT.due _ _).
      - match type of Ec with context [PT.render ?t ?n] =>
          destruct (render_returns t n) as [text Er] end.
        + simpl. lia.
        + simpl. lia.
        + rewrite Er in Ec. congruence.
      - congruence. }
    subst r. apply IH; [lia | lia | assumption | lia].
Qed.

(** ** Accumulation (C4) *)

(** C4, as stated, fails: the tracker adds every delta without clamping.
    With a total of 10 bytes, two callbacks of 7 bytes leave 14 bytes
    accumulated. *)
Lemma transferred_exceeds_total_size :
  PT.bytes_transferred (PT.feed tracker_10 [(7, 1001%Q); (7, 1002%Q)]) = 14
  /\ PT.total_size (PT.feed tracker_10 [(7, 1001%Q); (7, 1002%Q)]) = 10.
Proof. split; vm_compute; reflexivity. Qed.

(** C4, amended: for every sequence of callbacks, whatever their byte
    counts, the accumulated count after any prefix is exactly the sum of the
    deltas fed so far: nothing is clamped to [total_size].  When the deltas
    are non-negative and sum to at most [total_size], the count therefore
    never exceeds [total_size]. *)
Theorem transferred_is_sum_of_deltas total interval t0 calls k :
  PT.bytes_transferred (PT.feed (PT.init total interval t0) (firstn k calls))
    = sum_deltas (firstn k calls)
  /\ (nonneg_deltas calls ->
      sum_deltas calls <= total ->
      PT.bytes_transferred (PT.feed (PT.init total interval t0) (firstn k calls))
        <= total).
Proof.
  rewrite feed_bytes. simpl. split; [reflexivity|].
  intros Hn Hs. pose proof (sum_deltas_firstn k calls Hn). lia.
Qed.

Lemma transferred_is_sum_of_deltas_witness :
  PT.bytes_transferred
    (PT.feed (PT.init 10 (3 # 2) 1000) (firstn 1 [(4, 1001%Q); (6, 1002%Q)]))
    = sum_deltas (firstn 1 [(4, 1001%Q); (6, 1002%Q)])
  /\ PT.bytes_transferred
    (PT.feed (PT.init 10 (3 # 2) 1000) (firstn 1 [(4, 1001%Q); (6, 1002%Q)]))
    <= 10.
Proof.
  destruct (transferred_is_sum_of_deltas
              10 (3 # 2) 1000 [(4, 1001%Q); (6, 1002%Q)] 1) as [Hsum Hle].
  split; [exact Hsum|]. apply Hle.
  - repeat constructor; simpl; lia.
  - vm_compute. discriminate.
Defined.

(** ** The final snapshot (C5) *)

(** C5, as stated, fails for a total of 1 TiB: rendering formats the total
    with the four-entry unit table, the lookup raises, and no status is
    ever stored. *)
Lemma no_snapshot_at_one_tebibyte :
  sum_deltas [(1024 ^ 4, 1001%Q)] = PT.total_size tracker_1TiB
  /\ PT.call tracker_1TiB (1024 ^ 4) 1001 =
       (PT.accumulate tracker_1TiB (1024 ^ 4), Raise IndexError)
  /\ PT.get_progress (PT.feed tracker_1TiB [(1024 ^ 4, 1001%Q)]) = None.
Proof. repeat split; vm_compute; reflexivity. Qed.

(** C5, amended: for [0 < total_size < 1024^4] and non-negative deltas
    summing to [total_size], every callback returns normally and the final
    snapshot is a status whose percentage reads 100.0 with a full bar. *)
Theorem final_snapshot_reports_100 total interval t0 calls :
  0 < total < 1024 ^ 4 ->
  nonneg_deltas calls ->
  sum_deltas calls = total ->
  PT.all_ok (PT.init total interval t0) calls = true
  /\ exists s speed eta,
       Fmt.format_size total = Ok s /\
       PT.get_progress (PT.feed (PT.init total interval t0) calls) =
         Some (upload_text {| st_bar := full_bar; st_pct := "100.0";
                              st_done := s; st_total := s;
                              st_speed := speed; st_eta := eta |}).
Proof.
  intros Ht Hn Hs. split.
  - apply all_ok_bounded; simpl; try assumption; lia.
  - destruct calls as [|c0 l0] using rev_ind.
    + unfold sum_deltas in Hs. simpl in Hs. lia.
    + clear IHl0. rewrite feed_snoc.
      set (prev := PT.feed (PT.init total interval t0) l0).
      assert (Hb : PT.bytes_transferred (PT.accumulate prev (fst c0)) = total).
      { simpl. unfold prev. rewrite feed_bytes. simpl.
        rewrite sum_deltas_snoc in Hs. lia. }
      assert (Htot : PT.total_size (PT.accumulate prev (fst c0)) = total).
      { simpl. unfold prev. apply feed_total. }
      destruct (render_complete (PT.accumulate prev (fst c0)) (snd c0))
        as (s & speed & eta & Hf & Hr).
      { rewrite Htot. exact Ht. }
      { rewrite Hb, Htot. reflexivity. }
      exists s, speed, eta. split.
      * rewrite <- Htot. exact Hf.
      * unfold PT.call.
        assert (Hd : PT.due (PT.accumulate prev (fst c0)) (snd c0) = true).
        { unfold PT.due. rewrite Hb, Htot.
          rewrite (proj2 (Z.geb_le total total)) by lia.
          apply orb_true_r. }
        rewrite Hd, Hr. reflexivity.
Qed.

Lemma final_snapshot_reports_100_witness :
  PT.all_ok (PT.init 10 (3 # 2) 1000) [(4, 1001%Q); (6, 1002%Q)] = true
  /\ exists s speed eta,
       Fmt.format_size 10 = Ok s /\
       PT.get_progress
         (PT.feed (PT.init 10 (3 # 2) 1000) [(4, 1001%Q); (6, 1002%Q)]) =
         Some (upload_text {| st_bar := full_bar; st_pct := "100.0";
                              st_done := s; st_total := s;
                              st_speed := speed; st_eta := eta |}).
Proof.
  apply (final_snapshot_reports_100 10 (3 # 2) 1000 [(4, 1001%Q); (6, 1002%Q)]).
  - split; [lia | reflexivity].
  - repeat constructor; simpl; lia.
  - reflexivity.
Defined.

(** ** When a status is rendered (C7) *)

(** C7, as stated, fails at the boundary: the test is a strict [>].  A
    tracker that sampled at time 1000 with an interval of 1.5 s and receives
    a callback at 1001.5 s, still short of its total, keeps its old text and
    its old sample time. *)
Lemma no_render_exactly_one_interval_later :
  PT.last_update_time tracker_sampled = 1000%Q
  /\ ((2003 # 2) - PT.last_update_time tracker_sampled
       == PT.update_interval tracker_sampled)%Q
  /\ PT.bytes_transferred tracker_sampled + 10 < PT.total_size tracker_sampled
  /\ PT.call tracker_sampled 10 (2003 # 2)
      = (PT.accumulate tracker_sampled 10, Ok tt)
  /\ PT.last_update_time (fst (PT.call tracker_sampled 10 (2003 # 2))) = 1000%Q
  /\ PT.current_progress (fst (PT.call tracker_sampled 10 (2003 # 2)))
      = PT.current_progress tracker_sampled.
Proof. repeat split; vm_compute; reflexivity. Qed.

(** C7, amended: for a tracker whose sizes the formatter can print
    ([0 < total_size < 1024^4], accumulated count in [0, 1024^4)), a callback
    returns normally; it renders, stores the text and sets the sample time
    to [now] exactly when [now - last_update_time > update_interval]
    (strictly) or the accumulated count has reached [total_size]; otherwise
    text and sample time stay as they were.  A callback exactly one
    interval after the last sample, short of the total, does not render. *)
Theorem render_iff_interval_exceeded_or_complete tr delta now :
  0 < PT.total_size tr < 1024 ^ 4 ->
  0 <= PT.bytes_transferred tr + delta < 1024 ^ 4 ->
  snd (PT.call tr delta now) = Ok tt
  /\ (((PT.update_interval tr < now - PT.last_update_time tr)%Q
        \/ PT.total_size tr <= PT.bytes_transferred tr + delta) ->
       exists text,
         PT.render (PT.accumulate tr delta) now = Ok text
         /\ fst (PT.call tr delta now) = PT.store (PT.accumulate tr delta) text now)
  /\ (((now - PT.last_update_time tr <= PT.update_interval tr)%Q
        /\ PT.bytes_transferred tr + delta < PT.total_size tr) ->
       fst (PT.call tr delta now) = PT.accumulate tr delta).
Proof.
  intros Ht Hb.
  destruct (render_returns (PT.accumulate tr delta) now Ht Hb) as [text Er].
  unfold PT.call. rewrite Er.
  destruct (PT.due (PT.accumulate tr delta) now) eqn:Ed; simpl.
  - split; [reflexivity|]. split.
    + intros _. exists text. split; reflexivity.
    + intros [Hi Hc]. exfalso. unfold PT.due in Ed. simpl in Ed.
      apply orb_true_iff in Ed. destruct Ed as [Ed|Ed].
      * apply Qgt_bool_true in Ed. exact (Qlt_not_le _ _ Ed Hi).
      * apply Z.geb_le in Ed. lia.
  - split; [reflexivity|]. split.
    + intros Hc. exfalso. unfold PT.due in Ed. simpl in Ed.
      apply orb_false_iff in Ed. destruct Ed as [Ed1 Ed2].
      destruct Hc as [Hc|Hc].
      * apply Qgt_bool_false in Ed1. exact (Qlt_not_le _ _ Hc Ed1).
      * rewrite Z.geb_leb in Ed2. apply Z.leb_gt in Ed2. lia.
    + intros _. reflexivity.
Qed.

Lemma render_iff_interval_exceeded_or_complete_witness :
  snd (PT.call tracker_sampled 10 1002) = Ok tt
  /\ (((PT.update_interval tracker_sampled
         < 1002 - PT.last_update_time tracker_sampled)%Q
        \/ PT.total_size tracker_sampled
           <= PT.bytes_transferred tracker_sampled + 10) ->
       exists text,
         PT.render (PT.accumulate tracker_sampled 10) 1002 = Ok text
         /\ fst (PT.call tracker_sampled 10 1002)
            = PT.store (PT.accumulate tracker_sampled 10) text 1002)
  /\ (((1002 - PT.last_update_time tracker_sampled
         <= PT.update_interval tracker_sampled)%Q
        /\ PT.bytes_transferred tracker_sampled + 10
           < PT.total_size tracker_sampled) ->
       fst (PT.call tracker_sampled 10 1002) = PT.accumulate tracker_sampled 10).
Proof.
  apply (render_iff_interval_exceeded_or_complete tracker_sampled 10 1002).
  - split; apply Z.ltb_lt; vm_compute; reflexivity.
  - split; [apply Z.leb_le | apply Z.ltb_lt]; vm_compute; reflexivity.
Defined.

(** ** The ETA of the two legs (C6) *)









(** The estimate is computed in binary64: 900 bytes left at 100 bytes in
    3 s is a speed of 33.33... B/s rounded down, and the quotient falls
    just below 27 s. *)
Example eta_is_rounded_as_floats :
  snd (PT.speed_eta 1000 100 3) = "00:26"
  /\ snd (DP.speed_eta 1000 100 3) = "00:26".
Proof. split; vm_compute; reflexivity. Qed.

(** The percentage is rounded as well: 23 bytes of 80 are 28.75 percent
    exactly, but the quotient 0.2875 is not a binary64 number and the
    product falls just below 28.75. *)
Example percentage_is_rounded_as_floats :
  fmt_fixed 1 (fmul (true_div 23 80) 100) = "28.7"
  /\ fmt_fixed 1 (inject_Z 23 / inject_Z 80 * 100) = "28.8".
Proof. split; vm_compute; reflexivity. Qed.




(** ** The upload handler *)

Lemma path_in_head path files : Bot.path_in path (path :: files) = true.
Proof. unfold Bot.path_in. simpl. rewrite String.eqb_refl. reflexivity. Qed.

(** Run the handler symbolically, one case per behaviour of the
    surroundings, and settle each case by computation. *)
Ltac run_cases :=
  step_run; repeat (rewrite ?path_in_head; split_scrutinee; step_run).

Ltac close_leaf :=
  cbn [puts_follow_upload existsb is_failed_transfer is_failed_download
       is_upload Bot.count filter
       Bot.is_remove Bot.is_put Bot.is_acquire List.length orb andb
       Bot.object_key Bot.download_url In];
  rewrite ?String.eqb_refl; cbn [andb];
  repeat split; intros; try discriminate; try reflexivity;
  try (left; split; reflexivity);
  try (right; eexists; split; [pick_member | split; reflexivity]).

(** What every run of the handler looks like, whatever the surroundings
    do. *)
Lemma run_shape env message w :
  puts_follow_upload None (Bot.events_of (Bot.handle_file_upload env message w)) = true
  /\ (existsb is_failed_transfer
        (Bot.events_of (Bot.handle_file_upload env message w)) = true ->
      Bot.uploaded_files (Bot.world_of (Bot.handle_file_upload env message w))
        = Bot.uploaded_files w
      /\ Bot.count Bot.is_remove
           (Bot.events_of (Bot.handle_file_upload env message w)) = 0%nat)
  /\ Bot.count Bot.is_acquire
       (Bot.events_of (Bot.handle_file_upload env message w)) = 1%nat
  /\ (existsb is_failed_download
        (Bot.events_of (Bot.handle_file_upload env message w)) = true ->
      existsb is_upload
        (Bot.events_of (Bot.handle_file_upload env message w)) = false)
  /\ ((Bot.count Bot.is_put
         (Bot.events_of (Bot.handle_file_upload env message w)) = 0%nat
       /\ Bot.uploaded_files (Bot.world_of (Bot.handle_file_upload env message w))
          = Bot.uploaded_files w)
      \/ exists info,
           In (Bot.EvPut (Bot.env_uuid4 env) info)
              (Bot.events_of (Bot.handle_file_upload env message w))
           /\ Bot.uploaded_files (Bot.world_of (Bot.handle_file_upload env message w))
              = PyDict.set (Bot.uploaded_files w) (Bot.env_uuid4 env) info
           /\ Bot.download_url info
              = "https://s3." ++ Bot.env_region env ++ ".wasabisys.com/"
                ++ Bot.env_bucket env ++ "/" ++ Bot.object_key info).
Proof.
  run_cases; close_leaf.
Qed.

Lemma upload_found_later (ev : Bot.Event) rest file_id info :
  (exists pre post path,
     rest = (pre ++ Bot.EvUpload path (Bot.object_key info) (Ok tt) :: post)%list
     /\ In (Bot.EvPut file_id info) post) ->
  exists pre post path,
    ev :: rest = (pre ++ Bot.EvUpload path (Bot.object_key info) (Ok tt) :: post)%list
    /\ In (Bot.EvPut file_id info) post.
Proof.
  intros (pre & post & path & -> & Hp).
  exists (ev :: pre), post, path. split; [reflexivity|assumption].
Qed.

Lemma puts_follow_upload_spec evs : forall seen file_id info,
  puts_follow_upload seen evs = true ->
  In (Bot.EvPut file_id info) evs ->
  seen = Some (Bot.object_key info)
  \/ exists pre post path,
       evs = (pre ++ Bot.EvUpload path (Bot.object_key info) (Ok tt) :: post)%list
       /\ In (Bot.EvPut file_id info) post.
Proof.
  induction evs as [|ev rest IH]; intros seen file_id info Hc Hin.
  - destruct Hin.
  - destruct Hin as [Hev|Hin].
    + subst ev. simpl in Hc. destruct seen as [key|]; [|discriminate].
      apply andb_true_iff in Hc. destruct Hc as [Hk _].
      apply String.eqb_eq in Hk. left. congruence.
    + destruct ev as [ |t r|t r|dir|path r|path key [u|e]|fid inf|key r|path b|e];
        simpl in Hc;
        try (destruct (IH _ _ _ Hc Hin) as [Hl|Hr];
             [left; exact Hl | right; apply upload_found_later; exact Hr]).
      * destruct (IH _ _ _ Hc Hin) as [Hl|Hr].
        -- right. injection Hl as Hk. subst key. destruct u.
           exists [], rest, path. split; [reflexivity|exact Hin].
        -- right. apply upload_found_later. exact Hr.
      * destruct seen as [k|]; [|discriminate].
        apply andb_true_iff in Hc. destruct Hc as [_ Hc].
        destruct (IH _ _ _ Hc Hin) as [Hl|Hr];
          [left; exact Hl | right; apply upload_found_later; exact Hr].
Qed.

Lemma failed_transfer_seen evs :
  (exists path e, In (Bot.EvDownload path (Raise e)) evs)
  \/ (exists path key e, In (Bot.EvUpload path key (Raise e)) evs) ->
  existsb is_failed_transfer evs = true.
Proof.
  intros [(path & e & H)|(path & key & e & H)];
    apply existsb_exists; eexists; (split; [exact H | reflexivity]).
Qed.

(** C3: a record reaches the file table only after its upload succeeded.
    In every run of the handler, whatever the transport, the object store
    and Telegram do: if a download or an upload raised, the table is left as
    it was; every write to the table is preceded in the log by a successful
    upload of the object key the record carries; and the table at the end
    is either the initial one or the initial one with that single record
    set, whose download URL is the one built after the upload returned. *)
Theorem record_visible_only_after_upload env message w :
  ((exists path e,
       In (Bot.EvDownload path (Raise e))
          (Bot.events_of (Bot.handle_file_upload env message w)))
    \/ (exists path key e,
         In (Bot.EvUpload path key (Raise e))
            (Bot.events_of (Bot.handle_file_upload env message w))) ->
    Bot.uploaded_files (Bot.world_of (Bot.handle_file_upload env message w))
      = Bot.uploaded_files w)
  /\ (forall file_id info,
        In (Bot.EvPut file_id info)
           (Bot.events_of (Bot.handle_file_upload env message w)) ->
        exists pre post path,
          Bot.events_of (Bot.handle_file_upload env message w)
            = (pre ++ Bot.EvUpload path (Bot.object_key info) (Ok tt) :: post)%list
          /\ In (Bot.EvPut file_id info) post)
  /\ (Bot.uploaded_files (Bot.world_of (Bot.handle_file_upload env message w))
        = Bot.uploaded_files w
      \/ exists info,
           In (Bot.EvPut (Bot.env_uuid4 env) info)
              (Bot.events_of (Bot.handle_file_upload env message w))
           /\ Bot.uploaded_files (Bot.world_of (Bot.handle_file_upload env message w))
              = PyDict.set (Bot.uploaded_files w) (Bot.env_uuid4 env) info
           /\ Bot.download_url info
              = "https://s3." ++ Bot.env_region env ++ ".wasabisys.com/"
                ++ Bot.env_bucket env ++ "/" ++ Bot.object_key info).
Proof.
  destruct (run_shape env message w) as (Hord & Hfail & _ & _ & Hput).
  split; [|split].
  - intros H. apply Hfail. apply failed_transfer_seen. exact H.
  - intros file_id info Hin.
    destruct (puts_follow_upload_spec _ _ _ _ Hord Hin) as [Hn|H].
    + discriminate Hn.
    + exact H.
  - destruct Hput as [[_ H]|H]; [left; exact H | right; exact H].
Qed.

Lemma record_visible_only_after_upload_witness :
  exists pre post path,
    Bot.events_of
      (Bot.handle_file_upload sample_env (document_message (10 * 1024 * 1024))
         empty_world)
    = (pre ++ Bot.EvUpload path "files/7/0f8fad5b_a.bin" (Ok tt) :: post)%list
    /\ In (Bot.EvPut "0f8fad5b"
             {| Bot.original_name := "a.bin";
                Bot.object_key := "files/7/0f8fad5b_a.bin";
                Bot.download_url :=
                  "https://s3.eu-central-1.wasabisys.com/bucket/files/7/0f8fad5b_a.bin";
                Bot.file_size := 10485760;
                Bot.upload_time := "2024-05-01T10:00:00.000001";
                Bot.user_id := 7 |}) post.
Proof.
  apply (proj1 (proj2 (record_visible_only_after_upload sample_env
                         (document_message (10 * 1024 * 1024)) empty_world))
           "0f8fad5b"
           {| Bot.original_name := "a.bin";
              Bot.object_key := "files/7/0f8fad5b_a.bin";
              Bot.download_url :=
                "https://s3.eu-central-1.wasabisys.com/bucket/files/7/0f8fad5b_a.bin";
              Bot.file_size := 10485760;
              Bot.upload_time := "2024-05-01T10:00:00.000001";
              Bot.user_id := 7 |}).
  vm_compute. pick_member.
Defined.

(** ** The size guard (C1) *)

Lemma oversize_run env message w file_info :
  Bot.select_file_info message = Some file_info ->
  Bot.max_file_size < Bot.media_file_size file_info ->
  Bot.world_of (Bot.handle_file_upload env message w) = w
  /\ Bot.events_of (Bot.handle_file_upload env message w)
     = Bot.EvAcquire :: rejection_log env.
Proof.
  intros Hsel Hsize. unfold rejection_log. step_run. rewrite Hsel.
  rewrite (proj2 (Z.gtb_lt _ _) Hsize). step_run.
  destruct (Bot.env_send env Bot.TTooLarge) as [u|e]; step_run.
  - split; reflexivity.
  - destruct (Bot.env_send env (Bot.TUploadError (Bot.exn_str e)));
      split; reflexivity.
Qed.

Lemma rejection_log_counts env :
  Bot.count Bot.is_acquire (rejection_log env) = 0%nat
  /\ Bot.count Bot.is_put (rejection_log env) = 0%nat
  /\ Bot.count Bot.is_transfer (rejection_log env) = 0%nat.
Proof.
  unfold rejection_log.
  destruct (Bot.env_send env Bot.TTooLarge); repeat split; reflexivity.
Qed.

(** C1, as stated, fails: the whole handler body runs inside
    [async with self.throttler], so a 5 GiB document is rejected after one
    acquisition of the rate limiter, not zero. *)
Lemma oversize_rejection_acquires_throttler :
  Bot.max_file_size < 5 * GiB
  /\ Bot.handle_file_upload sample_env (document_message (5 * GiB)) empty_world
     = (Ok tt, empty_world,
        [Bot.EvAcquire; Bot.EvReply Bot.TTooLarge (Ok tt)])
  /\ Bot.count Bot.is_acquire
       (Bot.events_of
          (Bot.handle_file_upload sample_env (document_message (5 * GiB))
             empty_world)) = 1%nat.
Proof. repeat split; vm_compute; reflexivity. Qed.

(** C1, amended: a file whose declared size exceeds 4 GiB is rejected with
    the size-limit reply as the first action after the rate limiter has been
    acquired exactly once; the run downloads and uploads nothing, writes
    nothing to the file table and leaves the state as it was. *)
Theorem oversize_rejected_after_one_acquisition env message w file_info :
  Bot.select_file_info message = Some file_info ->
  Bot.max_file_size < Bot.media_file_size file_info ->
  Bot.world_of (Bot.handle_file_upload env message w) = w
  /\ (exists rest,
        Bot.events_of (Bot.handle_file_upload env message w)
        = Bot.EvAcquire
            :: Bot.EvReply Bot.TTooLarge (Bot.env_send env Bot.TTooLarge) :: rest)
  /\ Bot.count Bot.is_acquire
       (Bot.events_of (Bot.handle_file_upload env message w)) = 1%nat
  /\ Bot.count Bot.is_put
       (Bot.events_of (Bot.handle_file_upload env message w)) = 0%nat
  /\ Bot.count Bot.is_transfer
       (Bot.events_of (Bot.handle_file_upload env message w)) = 0%nat.
Proof.
  intros Hsel Hsize.
  destruct (oversize_run env message w file_info Hsel Hsize) as [Hw Hev].
  destruct (rejection_log_counts env) as (Ha & Hp & Ht).
  rewrite Hev. split; [exact Hw|]. split.
  - unfold rejection_log. eexists. reflexivity.
  - unfold Bot.count in *. cbn [filter Bot.is_acquire Bot.is_put Bot.is_transfer].
    cbn [List.length]. rewrite Ha, Hp, Ht. repeat split; reflexivity.
Qed.

Lemma oversize_rejected_after_one_acquisition_witness :
  Bot.world_of
    (Bot.handle_file_upload sample_env (document_message (5 * GiB)) empty_world)
    = empty_world
  /\ (exists rest,
        Bot.events_of
          (Bot.handle_file_upload sample_env (document_message (5 * GiB))
             empty_world)
        = Bot.EvAcquire
            :: Bot.EvReply Bot.TTooLarge (Bot.env_send sample_env Bot.TTooLarge)
            :: rest)
  /\ Bot.count Bot.is_acquire
       (Bot.events_of
          (Bot.handle_file_upload sample_env (document_message (5 * GiB))
             empty_world)) = 1%nat
  /\ Bot.count Bot.is_put
       (Bot.events_of
          (Bot.handle_file_upload sample_env (document_message (5 * GiB))
             empty_world)) = 0%nat
  /\ Bot.count Bot.is_transfer
       (Bot.events_of
          (Bot.handle_file_upload sample_env (document_message (5 * GiB))
             empty_world)) = 0%nat.
Proof.
  apply (oversize_rejected_after_one_acquisition sample_env
           (document_message (5 * GiB)) empty_world
           {| Bot.media_file_size := 5 * GiB;
              Bot.media_file_name := Some "a.bin" |}).
  - reflexivity.
  - reflexivity.
Defined.

(** ** Staging-file cleanup (C2) *)

(** C2: the code does not do this.  When the object store refuses the
    upload, the handler publishes the failure text and leaves the file
    table alone, but [os.remove] is never called: the staging file is still
    there when the invocation is over.  Only the success branch removes
    it. *)
Theorem staging_file_left_after_upload_failure :
  Bot.handle_file_upload upload_refused_env
    (document_message (10 * 1024 * 1024)) empty_world
  = (Ok tt,
     {| Bot.uploaded_files := [];
        Bot.staged := ["downloads/0f8fad5b_a.bin"] |},
     [Bot.EvAcquire;
      Bot.EvReply Bot.TDownloadInit (Ok tt);
      Bot.EvMkdir "downloads";
      Bot.EvDownload "downloads/0f8fad5b_a.bin" (Ok tt);
      Bot.EvEdit (Bot.TDownloadComplete "a.bin" "10.0 MB" "5.00" "2.0") (Ok tt);
      Bot.EvUpload "downloads/0f8fad5b_a.bin" "files/7/0f8fad5b_a.bin"
        (Raise ClientError);
      Bot.EvLogError ClientError;
      Bot.EvEdit Bot.TUploadFailed (Ok tt)]).
Proof. vm_compute. reflexivity. Qed.

(** In every run, [os.remove] is attempted only where the record was
    written: a run with a failed transfer attempts no removal. *)
Lemma no_removal_after_failed_transfer env message w :
  existsb is_failed_transfer
    (Bot.events_of (Bot.handle_file_upload env message w)) = true ->
  Bot.count Bot.is_remove
    (Bot.events_of (Bot.handle_file_upload env message w)) = 0%nat.
Proof.
  intros H. destruct (run_shape env message w) as (_ & Hfail & _).
  apply Hfail. exact H.
Qed.

(** X2: a failed download is never followed by an upload.  In every run
    in which the transport's download raised, the log holds no call of the
    object store's upload. *)
Theorem download_failure_prevents_upload env message w path e :
  In (Bot.EvDownload path (Raise e))
     (Bot.events_of (Bot.handle_file_upload env message w)) ->
  existsb is_upload (Bot.events_of (Bot.handle_file_upload env message w)) = false.
Proof.
  intros Hd.
  destruct (run_shape env message w) as (_ & _ & _ & Hno & _).
  apply Hno. apply existsb_exists. eexists. split; [exact Hd|reflexivity].
Qed.

Lemma download_failure_prevents_upload_witness :
  existsb is_upload
    (Bot.events_of
       (Bot.handle_file_upload download_failed_env
          (document_message (10 * 1024 * 1024)) empty_world)) = false.
Proof.
  apply (download_failure_prevents_upload download_failed_env
           (document_message (10 * 1024 * 1024)) empty_world
           "downloads/0f8fad5b_a.bin" (OtherError "connection lost")).
  vm_compute. pick_member.
Defined.

(** Example: the successful relay of a 10 MiB document, action by
    action. *)
Theorem relay_of_ten_mebibytes :
  Bot.handle_file_upload sample_env (document_message (10 * 1024 * 1024))
    empty_world
  = (Ok tt,
     {| Bot.uploaded_files :=
          [("0f8fad5b",
            {| Bot.original_name := "a.bin";
               Bot.object_key := "files/7/0f8fad5b_a.bin";
               Bot.download_url :=
                 "https://s3.eu-central-1.wasabisys.com/bucket/files/7/0f8fad5b_a.bin";
               Bot.file_size := 10485760;
               Bot.upload_time := "2024-05-01T10:00:00.000001";
               Bot.user_id := 7 |})];
        Bot.staged := [] |},
     [Bot.EvAcquire;
      Bot.EvReply Bot.TDownloadInit (Ok tt);
      Bot.EvMkdir "downloads";
      Bot.EvDownload "downloads/0f8fad5b_a.bin" (Ok tt);
      Bot.EvEdit (Bot.TDownloadComplete "a.bin" "10.0 MB" "5.00" "2.0") (Ok tt);
      Bot.EvUpload "downloads/0f8fad5b_a.bin" "files/7/0f8fad5b_a.bin" (Ok tt);
      Bot.EvPut "0f8fad5b"
        {| Bot.original_name := "a.bin";
           Bot.object_key := "files/7/0f8fad5b_a.bin";
           Bot.download_url :=
             "https://s3.eu-central-1.wasabisys.com/bucket/files/7/0f8fad5b_a.bin";
           Bot.file_size := 10485760;
           Bot.upload_time := "2024-05-01T10:00:00.000001";
           Bot.user_id := 7 |};
      Bot.EvPresign "files/7/0f8fad5b_a.bin" (Ok "https://signed.example/a.bin");
      Bot.EvEdit
        (Bot.TUploadComplete "a.bin" "10.0 MB" "0f8fad5b"
           "https://signed.example/a.bin") (Ok tt);
      Bot.EvRemove "downloads/0f8fad5b_a.bin" true]).
Proof. vm_compute. reflexivity. Qed.

(** ** Writing the file table (C8) *)

Lemma dict_get_set_same {V} (d : PyDict.dict V) k v :
  PyDict.get (PyDict.set d k v) k = Some v.
Proof.
  induction d as [|[k' v'] d IH]; simpl.
  - rewrite String.eqb_refl. reflexivity.
  - destruct (String.eqb k' k) eqn:E; simpl; rewrite E; [reflexivity|exact IH].
Qed.

Lemma dict_get_set_other {V} (d : PyDict.dict V) k v k0 :
  k0 <> k -> PyDict.get (PyDict.set d k v) k0 = PyDict.get d k0.
Proof.
  intros Hne. induction d as [|[k' v'] d IH]; simpl.
  - destruct (String.eqb_spec k k0); [congruence|reflexivity].
  - destruct (String.eqb_spec k' k) as [->|Hk]; simpl.
    + destruct (String.eqb_spec k k0); [congruence|reflexivity].
    + destruct (String.eqb k' k0); [reflexivity|exact IH].
Qed.

Lemma dict_len_set {V} (d : PyDict.dict V) k v :
  PyDict.len (PyDict.set d k v)
  = if PyDict.mem d k then PyDict.len d else S (PyDict.len d).
Proof.
  unfold PyDict.len, PyDict.mem.
  induction d as [|[k' v'] d IH]; simpl.
  - reflexivity.
  - destruct (String.eqb k' k); simpl; [reflexivity|].
    rewrite IH. destruct (PyDict.get d k); reflexivity.
Qed.

(** C8, as stated, fails: the table write is a plain keyed assignment.
    Writing a second record under an id that is already present returns
    normally and the first record is gone. *)
Lemma registry_put_overwrites_silently :
  PyDict.get (Bot.uploaded_files world_with_old) "0f8fad5b" = Some old_record
  /\ Bot.registry_put "0f8fad5b" new_record world_with_old
     = (Ok tt,
        {| Bot.uploaded_files := [("0f8fad5b", new_record)]; Bot.staged := [] |},
        [Bot.EvPut "0f8fad5b" new_record]).
Proof. split; vm_compute; reflexivity. Qed.

(** C8, amended: writing a record to the file table never fails.  After
    the write the id maps to the new record, every other id maps to what it
    did before, and the table has one more entry when the id was absent and
    the same number when it was present (the old record is replaced in
    place). *)
Theorem registry_put_inserts_or_replaces file_id info w :
  Bot.result_of (Bot.registry_put file_id info w) = Ok tt
  /\ PyDict.get (Bot.uploaded_files (Bot.world_of (Bot.registry_put file_id info w)))
       file_id = Some info
  /\ (forall k, k <> file_id ->
        PyDict.get (Bot.uploaded_files (Bot.world_of (Bot.registry_put file_id info w))) k
        = PyDict.get (Bot.uploaded_files w) k)
  /\ PyDict.len (Bot.uploaded_files (Bot.world_of (Bot.registry_put file_id info w)))
     = (if PyDict.mem (Bot.uploaded_files w) file_id
        then PyDict.len (Bot.uploaded_files w)
        else S (PyDict.len (Bot.uploaded_files w))).
Proof.
  step_run. split; [reflexivity|]. split; [apply dict_get_set_same|]. split.
  - intros k Hk. apply dict_get_set_other. exact Hk.
  - apply dict_len_set.
Qed.

(** ** The recent-files endpoint (C9) *)

(** C9: the code does not do this.  The sort key is the day
    ([upload_time[:10]]) and the sort is stable, so two uploads of the same
    day come out in insertion order: the morning upload precedes the
    afternoon one, although it was created earlier. *)
Theorem api_files_same_day_oldest_first :
  String.ltb (Bot.upload_time old_record) (Bot.upload_time new_record) = true
  /\ Web.api_files same_day_table
     = Web.Success
         [ {| Web.id := "0f8fad5b"; Web.name := "old.bin"; Web.size := "1.5 KB";
              Web.date := "2024-05-01";
              Web.streaming_url := Bot.download_url old_record |};
           {| Web.id := "7c9e6679"; Web.name := "new.bin"; Web.size := "2.0 KB";
              Web.date := "2024-05-01";
              Web.streaming_url := Bot.download_url new_record |} ].
Proof. split; vm_compute; reflexivity. Qed.

Lemma ltb_asym a b : String.ltb a b = true -> String.ltb b a = false.
Proof.
  unfold String.ltb. rewrite (String.compare_antisym a b).
  destruct (String.compare b a); simpl; congruence.
Qed.

Lemma insert_desc_head a x l :
  day_not_before a x -> HdRel day_not_before a l ->
  HdRel day_not_before a (Web.insert_desc x l).
Proof.
  intros Hx Hl. destruct l as [|y l]; simpl.
  - constructor. exact Hx.
  - destruct (String.ltb (Web.date y) (Web.date x)); constructor.
    + exact Hx.
    + inversion Hl; assumption.
Qed.

Lemma insert_desc_sorted x l :
  Sorted day_not_before l -> Sorted day_not_before (Web.insert_desc x l).
Proof.
  induction l as [|y l IH]; intros Hs; simpl.
  - repeat constructor.
  - inversion Hs as [|? ? Hl Hh]; subst.
    destruct (String.ltb (Web.date y) (Web.date x)) eqn:E.
    + constructor; [exact Hs|]. constructor. apply ltb_asym. exact E.
    + constructor; [apply IH; exact Hl|].
      apply insert_desc_head; assumption.
Qed.

Lemma sort_by_date_desc_sorted l :
  Sorted day_not_before (Web.sort_by_date_desc l).
Proof.
  unfold Web.sort_by_date_desc.
  assert (H : forall acc, Sorted day_not_before acc ->
            Sorted day_not_before
              (fold_left (fun acc x => Web.insert_desc x acc) l acc)).
  { induction l as [|x l IH]; intros acc Ha; simpl.
    - exact Ha.
    - apply IH. apply insert_desc_sorted. exact Ha. }
  apply H. constructor.
Qed.

Lemma firstn_sorted n : forall l,
  Sorted day_not_before l -> Sorted day_not_before (firstn n l).
Proof.
  induction n as [|n IH]; intros l Hs; simpl.
  - constructor.
  - destruct l as [|x l]; [constructor|].
    inversion Hs as [|? ? Hl Hh]; subst.
    constructor; [apply IH; exact Hl|].
    destruct n; simpl; [constructor|].
    destruct l as [|y l]; constructor. inversion Hh; assumption.
Qed.

(** X1: what the endpoint does guarantee.  A successful listing has at
    most twenty entries and is ordered by day, newest day first: no entry
    is followed by one of a later day. *)
Theorem api_files_sorted_by_day table files :
  Web.api_files table = Web.Success files ->
  Sorted day_not_before files /\ (List.length files <= 20)%nat.
Proof.
  unfold Web.api_files. destruct (Web.build _) as [entries|e]; [|discriminate].
  intros H.
  assert (E : files = firstn 20 (Web.sort_by_date_desc entries)) by congruence.
  rewrite E. split.
  - apply firstn_sorted. apply sort_by_date_desc_sorted.
  - apply firstn_le_length.
Qed.

Lemma api_files_sorted_by_day_witness :
  Sorted day_not_before
    [ {| Web.id := "0f8fad5b"; Web.name := "old.bin"; Web.size := "1.5 KB";
         Web.date := "2024-05-01";
         Web.streaming_url := Bot.download_url old_record |};
      {| Web.id := "7c9e6679"; Web.name := "new.bin"; Web.size := "2.0 KB";
         Web.date := "2024-05-01";
         Web.streaming_url := Bot.download_url new_record |} ]
  /\ (2 <= 20)%nat.
Proof.
  apply (api_files_sorted_by_day same_day_table).
  vm_compute. reflexivity.
Defined.

(** ** The size formatter and the size guard (C10) *)

(** C10: the size formatter returns a string for every size in
    [0, 1024^4) (the unit is the entry of the table at index
    [floor(log_1024 size)], and zero gives "0 B"); for every size of
    1 TiB or more the index is past the table and the formatter raises.
    A run of the handler that got as far as a transfer has a declared size
    of at most 4 GiB, so formatting that size returns; and a tracker whose
    total is at most 4 GiB and whose count is within the total renders
    without raising. *)
Theorem format_size_total_below_one_tebibyte :
  Fmt.format_size 0 = Ok "0 B"
  /\ (forall n, 0 < n < 1024 ^ 4 ->
        exists unit,
          nth_error Fmt.size_names (Z.to_nat (floor_log1024 n)) = Some unit
          /\ 1024 ^ floor_log1024 n <= n < 1024 ^ (floor_log1024 n + 1)
          /\ Fmt.format_size n
             = Ok (str_round2 (n # Z.to_pos (1024 ^ floor_log1024 n))
                   ++ " " ++ unit))
  /\ (forall n, 1024 ^ 4 <= n -> Fmt.format_size n = Raise IndexError)
  /\ (forall env message w file_info,
        Bot.select_file_info message = Some file_info ->
        0 <= Bot.media_file_size file_info ->
        (0 < Bot.count Bot.is_transfer
               (Bot.events_of (Bot.handle_file_upload env message w)))%nat ->
        Bot.media_file_size file_info <= Bot.max_file_size
        /\ exists s, Fmt.format_size (Bot.media_file_size file_info) = Ok s)
  /\ (forall tr now,
        0 < PT.total_size tr <= Bot.max_file_size ->
        0 <= PT.bytes_transferred tr <= PT.total_size tr ->
        exists text, PT.render tr now = Ok text).
Proof.
  assert (Hmax : Bot.max_file_size < 1024 ^ 4) by reflexivity.
  split; [reflexivity|]. split; [|split; [|split]].
  - intros n Hn.
    destruct (format_size_small n ltac:(lia)) as (unit & Hu & [H0|Hf]); [lia|].
    exists unit. split; [exact Hu|]. split; [|exact Hf].
    apply floor_log1024_spec. lia.
  - exact format_size_raises.
  - intros env message w file_info Hsel H0 Ht.
    destruct (Z.le_gt_cases (Bot.media_file_size file_info) Bot.max_file_size)
      as [Hle|Hgt].
    + split; [exact Hle|]. apply format_size_returns. lia.
    + exfalso.
      destruct (oversize_run env message w file_info Hsel Hgt) as [_ Hev].
      destruct (rejection_log_counts env) as (_ & _ & Hc).
      rewrite Hev in Ht. unfold Bot.count in *.
      cbn [filter Bot.is_transfer] in Ht. rewrite Hc in Ht. lia.
  - intros tr now Ht Hb. apply render_returns; lia.
Qed.

Lemma format_size_total_below_one_tebibyte_witness :
  exists unit,
    nth_error Fmt.size_names (Z.to_nat (floor_log1024 1536)) = Some unit
    /\ 1024 ^ floor_log1024 1536 <= 1536 < 1024 ^ (floor_log1024 1536 + 1)
    /\ Fmt.format_size 1536
       = Ok (str_round2 (1536 # Z.to_pos (1024 ^ floor_log1024 1536))
             ++ " " ++ unit).
Proof.
  apply (proj1 (proj2 format_size_total_below_one_tebibyte) 1536).
  split; reflexivity.
Defined.

(** ** Formatter examples *)

(** Examples: the formatters on a few values. *)
Theorem formatter_examples :
  Fmt.format_size 0 = Ok "0 B"
  /\ Fmt.format_size 1536 = Ok "1.5 KB"
  /\ Fmt.format_size (4 * GiB) = Ok "4.0 GB"
  /\ Fmt.format_time (-1) = "--:--"
  /\ Fmt.format_time 125.7 = "02:05"
  /\ Fmt.create_progress_bar 50 20 = "[██████████░░░░░░░░░░] 50.0%".
Proof. repeat split; vm_compute; reflexivity. Qed.

(* ===================================================================== *)
(** * Further properties of the code *)
(* ===================================================================== *)

(** ** Time and bar formatting *)

Lemma Qfloor_minus_Z x k : Qfloor (x - inject_Z k) = Qfloor x - k.
Proof.
  destruct x as [a b]. unfold Qminus, Qplus, Qopp, inject_Z, Qfloor. simpl.
  rewrite Z.mul_1_r, Pos.mul_1_r.
  replace (a + - k * Z.pos b) with (a + (- k) * Z.pos b) by lia.
  rewrite Z.div_add by lia. lia.
Qed.

Lemma Qfloor_div_60 x : Qfloor (x / 60) = Qfloor x / 60.
Proof.
  destruct x as [a b]. unfold Qdiv, Qmult, Qinv, Qfloor. simpl.
  rewrite Z.mul_1_r. rewrite Pos2Z.inj_mul.
  rewrite Z.div_div by lia. reflexivity.
Qed.

Lemma fmt_02d_two_digits n :
  0 <= n < 60 -> String.length (fmt_02d n) = 2%nat.
Proof.
  intros H. rewrite <- (Z2Nat.id n) by lia.
  assert (Hk : (Z.to_nat n < 60)%nat) by lia.
  generalize dependent (Z.to_nat n). intros k Hk.
  do 60 (destruct k as [|k]; [reflexivity|]). lia.
Qed.

(** X4: [_format_time] prints whole minutes and the remaining whole
    seconds.  A negative duration gives the placeholder.  A duration
    [s >= 0] gives [floor(s) div 60] zero-padded to two digits, a colon, and
    [floor(s) mod 60], which always takes exactly two digits (minutes beyond
    99 take more than two). *)
Theorem format_time_minutes_and_seconds s :
  ((s < 0)%Q -> Fmt.format_time s = "--:--")
  /\ ((0 <= s)%Q ->
      Fmt.format_time s
        = fmt_02d (Qfloor s / 60) ++ ":" ++ fmt_02d (Qfloor s mod 60)
      /\ String.length (fmt_02d (Qfloor s mod 60)) = 2%nat).
Proof.
  split.
  - intros Hs. unfold Fmt.format_time.
    destruct (Qle_bool 0 s) eqn:E; [|reflexivity].
    apply Qle_bool_iff in E. exfalso. exact (Qlt_not_le _ _ Hs E).
  - intros Hs. split.
    + unfold Fmt.format_time. rewrite (proj2 (Qle_bool_iff 0 s) Hs).
      rewrite Qfloor_div_60.
      assert (Hm : (inject_Z (60 * (Qfloor s / 60)) <= s)%Q).
      { apply Qle_trans with (inject_Z (Qfloor s)); [|apply Qfloor_le].
        rewrite <- Zle_Qle. apply Z.mul_div_le. lia. }
      unfold py_int.
      assert (Hp : Qle_bool 0 (s - inject_Z (60 * (Qfloor s / 60))) = true).
      { apply Qle_bool_iff. unfold Qminus. rewrite <- Qle_minus_iff. exact Hm. }
      rewrite Hp, Qfloor_minus_Z.
      rewrite (Z.mod_eq (Qfloor s) 60) by lia. reflexivity.
    + apply fmt_02d_two_digits. apply Z.mod_pos_bound. lia.
Qed.

Lemma format_time_minutes_and_seconds_witness :
  Fmt.format_time 125.7
    = fmt_02d (Qfloor 125.7 / 60) ++ ":" ++ fmt_02d (Qfloor 125.7 mod 60)
  /\ String.length (fmt_02d (Qfloor 125.7 mod 60)) = 2%nat.
Proof.
  apply (proj2 (format_time_minutes_and_seconds 125.7)).
  unfold Qle. simpl. lia.
Defined.

Lemma py_int_nonneg x : (0 <= x)%Q -> py_int x = Qfloor x.
Proof.
  intros H. unfold py_int. rewrite (proj2 (Qle_bool_iff 0 x) H). reflexivity.
Qed.

Lemma py_int_mono x y : (x <= y)%Q -> py_int x <= py_int y.
Proof.
  intros H. unfold py_int.
  destruct (Qle_bool 0 x) eqn:Ex; destruct (Qle_bool 0 y) eqn:Ey.
  - apply Qfloor_resp_le. exact H.
  - apply Qle_bool_iff in Ex. exfalso.
    assert (Hy : (0 <= y)%Q) by (apply Qle_trans with x; assumption).
    apply Qle_bool_iff in Hy. congruence.
  - apply Qle_bool_iff in Ey.
    assert (Hx : (x <= 0)%Q).
    { apply Qlt_le_weak. apply Qnot_le_lt. intros C.
      apply Qle_bool_iff in C. congruence. }
    apply Z.le_trans with 0.
    + rewrite <- (Qceiling_Z 0). apply Qceiling_resp_le. exact Hx.
    + rewrite <- (Qfloor_Z 0). apply Qfloor_resp_le. exact Ey.
  - apply Qceiling_resp_le. exact H.
Qed.

Lemma cells_filled_mono x y l :
  0 <= l -> (x <= y)%Q -> cells_filled x l <= cells_filled y l.
Proof.
  intros Hl H. unfold cells_filled, fmul, fdiv.
  apply py_int_mono, fl_mono.
  apply Qmult_le_compat_r.
  - apply fl_mono. unfold Qdiv. apply Qmult_le_compat_r; [exact H|discriminate].
  - unfold of_int. apply fl_nonneg. unfold Qle. cbn [Qnum Qden inject_Z]. lia.
Qed.

Lemma cells_filled_multiples (n : nat) :
  (n <= 20)%nat -> cells_filled (inject_Z (5 * Z.of_nat n)) 20 = Z.of_nat n.
Proof.
  intros H.
  do 21 (destruct n as [|n]; [vm_compute; reflexivity|]).
  lia.
Qed.

(** Just below 15 percent the quotient rounds up to 0.15 and the third
    cell is already filled, where the exact quotient gives two. *)
Example third_cell_just_below_15 :
  cells_filled just_below_15 20 = 3
  /\ Qfloor (just_below_15 / 5) = 2
  /\ Fmt.create_progress_bar just_below_15 20 = "[███░░░░░░░░░░░░░░░░░] 15.0%".
Proof. repeat split; vm_compute; reflexivity. Qed.

(** X5: the progress bar draws [int(percentage / 100 * 20)] filled cells,
    computed in binary64.  Between 0 and 100 percent it has exactly twenty
    cells.  From 100 percent on (more bytes reported than the total) it has
    no empty cell and at least twenty filled ones, so it grows beyond its
    width.  The number of filled cells never decreases when the percentage
    grows, and at a whole multiple of five percent it is exactly a twentieth
    of the percentage. *)
Theorem progress_bar_cells pct :
  Fmt.create_progress_bar pct 20
    = bar_of (Z.to_nat (cells_filled pct 20))
             (Z.to_nat (20 - cells_filled pct 20)) pct
  /\ ((0 <= pct)%Q -> (pct <= 100)%Q ->
      0 <= cells_filled pct 20 <= 20
      /\ (Z.to_nat (cells_filled pct 20)
          + Z.to_nat (20 - cells_filled pct 20) = 20)%nat)
  /\ ((100 <= pct)%Q ->
      20 <= cells_filled pct 20
      /\ Z.to_nat (20 - cells_filled pct 20) = 0%nat)
  /\ (forall pct', (pct <= pct')%Q ->
        cells_filled pct 20 <= cells_filled pct' 20)
  /\ (forall k, 0 <= k <= 20 -> cells_filled (inject_Z (5 * k)) 20 = k).
Proof.
  assert (E0 : cells_filled 0 20 = 0) by (vm_compute; reflexivity).
  assert (E100 : cells_filled 100 20 = 20) by (vm_compute; reflexivity).
  split; [reflexivity|]. split; [|split; [|split]].
  - intros H0 H100.
    pose proof (cells_filled_mono 0 pct 20 ltac:(lia) H0) as L.
    pose proof (cells_filled_mono pct 100 20 ltac:(lia) H100) as U.
    lia.
  - intros H100.
    pose proof (cells_filled_mono 100 pct 20 ltac:(lia) H100) as L. lia.
  - intros pct' H. apply cells_filled_mono; [lia|exact H].
  - intros k Hk. rewrite <- (Z2Nat.id k) by lia.
    apply cells_filled_multiples. lia.
Qed.

Lemma progress_bar_cells_witness :
  0 <= cells_filled 37.5 20 <= 20
  /\ (Z.to_nat (cells_filled 37.5 20)
      + Z.to_nat (20 - cells_filled 37.5 20) = 20)%nat.
Proof.
  apply (proj1 (proj2 (progress_bar_cells 37.5))); unfold Qle; simpl; lia.
Defined.

(** ** Trackers: zero totals, what a callback leaves alone, the download
       leg's cadence *)

Lemma call_zero_total tr d now :
  PT.total_size tr = 0 ->
  0 <= PT.bytes_transferred tr + d ->
  PT.call tr d now = (PT.accumulate tr d, Raise ZeroDivisionError).
Proof.
  intros Ht Hb. unfold PT.call.
  assert (Hd : PT.due (PT.accumulate tr d) now = true).
  { unfold PT.due. simpl. rewrite Ht.
    rewrite (proj2 (Z.geb_le _ _) Hb). apply orb_true_r. }
  rewrite Hd. unfold PT.render. simpl. rewrite Ht. reflexivity.
Qed.

(** X6: a total of zero bytes (an empty file, or a size the transport did
    not report) makes rendering divide by zero.  On the upload tracker
    every callback of a sequence with non-negative counts, the first as
    much as any later one, raises [ZeroDivisionError] after adding its
    bytes, and no status is ever stored; on the download tracker an update
    that is due raises the same error and leaves the edit time as it
    was. *)
Theorem zero_total_raises_division_error interval t0 calls :
  nonneg_deltas calls ->
  PT.get_progress (PT.feed (PT.init 0 interval t0) calls) = None
  /\ (forall before c after, calls = (before ++ c :: after)%list ->
        PT.call (PT.feed (PT.init 0 interval t0) before) (fst c) (snd c)
          = (PT.accumulate (PT.feed (PT.init 0 interval t0) before) (fst c),
             Raise ZeroDivisionError))
  /\ (forall dp current now,
        (3 # 2 < now - DP.last_update dp)%Q ->
        DP.update dp current 0 now = (dp_record dp current, Raise ZeroDivisionError)).
Proof.
  intros Hn. split; [|split].
  - assert (H : forall tr, PT.total_size tr = 0 -> 0 <= PT.bytes_transferred tr ->
                  PT.current_progress (PT.feed tr calls) = PT.current_progress tr).
    { induction Hn as [|c l Hc Hl IH]; intros tr Ht Hb.
      - reflexivity.
      - unfold PT.feed. cbn [fold_left].
        rewrite (call_zero_total tr (fst c) (snd c) Ht) by lia.
        cbn [fst]. change (fold_left _ l ?x) with (PT.feed x l).
        rewrite IH; simpl; [reflexivity | exact Ht | lia]. }
    unfold PT.get_progress. rewrite H; simpl; [reflexivity | reflexivity | lia].
  - intros before c after ->.
    apply Forall_app in Hn. destruct Hn as [Hb Hc].
    apply Forall_cons_iff in Hc. destruct Hc as [Hc _].
    pose proof (sum_deltas_nonneg before Hb) as Hs.
    apply call_zero_total.
    + rewrite feed_total. reflexivity.
    + rewrite feed_bytes. simpl. lia.
  - intros dp current now Hd. unfold DP.update.
    change {| DP.total_size := DP.total_size dp; DP.downloaded := current;
              DP.start_time := DP.start_time dp; DP.last_update := DP.last_update dp |}
      with (dp_record dp current).
    assert (E : Qgt_bool (now - DP.last_update (dp_record dp current)) (3 # 2) = true).
    { apply Qgt_bool_true. exact Hd. }
    rewrite E. reflexivity.
Qed.

Lemma zero_total_raises_division_error_witness :
  PT.get_progress
    (PT.feed (PT.init 0 (3 # 2) 1000) [(0, 1001%Q); (5, 1002%Q)]) = None
  /\ PT.call (PT.feed (PT.init 0 (3 # 2) 1000) [(0, 1001%Q)]) 5 1002
     = (PT.accumulate (PT.feed (PT.init 0 (3 # 2) 1000) [(0, 1001%Q)]) 5,
        Raise ZeroDivisionError)
  /\ DP.update (DP.init 0 1000) 0 0 1002
     = (dp_record (DP.init 0 1000) 0, Raise ZeroDivisionError).
Proof.
  destruct (zero_total_raises_division_error
              (3 # 2) 1000 [(0, 1001%Q); (5, 1002%Q)]) as (Hnone & Hcall & Hdown).
  - repeat constructor; simpl; lia.
  - split; [exact Hnone|]. split.
    + apply (Hcall [(0, 1001%Q)] (5, 1002%Q) []). reflexivity.
    + apply Hdown. vm_compute. reflexivity.
Defined.

Lemma call_frame tr d now :
  PT.total_size (fst (PT.call tr d now)) = PT.total_size tr
  /\ PT.update_interval (fst (PT.call tr d now)) = PT.update_interval tr
  /\ PT.start_time (fst (PT.call tr d now)) = PT.start_time tr
  /\ (PT.last_update_time (fst (PT.call tr d now)) = PT.last_update_time tr
      \/ PT.last_update_time (fst (PT.call tr d now)) = now)
  /\ (PT.current_progress tr <> None ->
      PT.current_progress (fst (PT.call tr d now)) <> None)
  /\ (snd (PT.call tr d now) <> Ok tt ->
      fst (PT.call tr d now) = PT.accumulate tr d).
Proof.
  unfold PT.call.
  destruct (PT.due _ _); [destruct (PT.render _ _)|]; simpl;
    repeat split; auto; try discriminate; try congruence.
Qed.

(** X7: what a callback of the upload tracker leaves alone.  Over any
    sequence of callbacks the total, the interval and the start time never
    change; the sample time is the initial one or the time of one of the
    callbacks; a stored status is never cleared; and a callback that raises
    changes nothing but the byte count. *)
Theorem callbacks_keep_configuration tr calls :
  PT.total_size (PT.feed tr calls) = PT.total_size tr
  /\ PT.update_interval (PT.feed tr calls) = PT.update_interval tr
  /\ PT.start_time (PT.feed tr calls) = PT.start_time tr
  /\ (PT.last_update_time (PT.feed tr calls) = PT.last_update_time tr
      \/ In (PT.last_update_time (PT.feed tr calls)) (map snd calls))
  /\ (PT.current_progress tr <> None ->
      PT.current_progress (PT.feed tr calls) <> None)
  /\ (forall d now,
        snd (PT.call tr d now) <> Ok tt ->
        fst (PT.call tr d now) = PT.accumulate tr d).
Proof.
  induction calls as [|c l IH] using rev_ind.
  - simpl. repeat split; auto. intros d now. apply call_frame.
  - destruct IH as (I1 & I2 & I3 & I4 & I5 & I6).
    rewrite feed_snoc.
    destruct (call_frame (PT.feed tr l) (fst c) (snd c))
      as (C1 & C2 & C3 & C4 & C5 & _).
    rewrite C1, C2, C3, I1, I2, I3. repeat split; auto.
    rewrite map_app, in_app_iff. simpl.
    destruct C4 as [C4|C4]; rewrite C4; [destruct I4; auto | auto].
Qed.

(** X8: the download tracker edits the status exactly when more than
    1.5 s have passed since its last edit, and on nothing else: it always
    records the byte count, but the callback that reports the last byte
    publishes nothing when it comes within 1.5 s of the previous edit. *)
Theorem download_update_cadence dp current total now :
  0 < total < 1024 ^ 4 ->
  0 <= current < 1024 ^ 4 ->
  ((3 # 2 < now - DP.last_update dp)%Q ->
   exists text,
     DP.render (dp_record dp current) current total now = Ok text
     /\ DP.update dp current total now = (dp_published dp current now, Ok (Some text)))
  /\ ((now - DP.last_update dp <= 3 # 2)%Q ->
      DP.update dp current total now = (dp_record dp current, Ok None)).
Proof.
  intros Ht Hc.
  assert (Hr : exists text, DP.render (dp_record dp current) current total now = Ok text).
  { unfold DP.render. destruct (Z.eqb_spec total 0); [lia|].
    destruct (DP.speed_eta total current (now - DP.start_time (dp_record dp current)))
      as [speed eta].
    destruct (format_size_returns current Hc) as [s1 ->].
    destruct (format_size_returns total ltac:(lia)) as [s2 ->].
    eexists. reflexivity. }
  destruct Hr as [text Hr].
  unfold DP.update.
  change {| DP.total_size := DP.total_size dp; DP.downloaded := current;
            DP.start_time := DP.start_time dp; DP.last_update := DP.last_update dp |}
    with (dp_record dp current).
  change (DP.last_update (dp_record dp current)) with (DP.last_update dp).
  split.
  - intros Hd.
    rewrite (proj2 (Qgt_bool_true _ _) Hd), Hr.
    exists text. split; reflexivity.
  - intros Hd.
    rewrite (proj2 (Qgt_bool_false _ _) Hd). reflexivity.
Qed.

Lemma download_update_cadence_witness :
  DP.update (dp_published (DP.init 100 1000) 40 1001) 100 100 1002
  = (dp_record (dp_published (DP.init 100 1000) 40 1001) 100, Ok None).
Proof.
  apply (proj2 (download_update_cadence
                  (dp_published (DP.init 100 1000) 40 1001) 100 100 1002
                  ltac:(split; reflexivity) ltac:(split; [discriminate | reflexivity]))).
  unfold Qle. simpl. lia.
Defined.

(** ** The file table as a dictionary *)

Lemma keys_set {V} (d : PyDict.dict V) k v :
  keys (PyDict.set d k v) = if PyDict.mem d k then keys d else (keys d ++ [k])%list.
Proof.
  unfold keys, PyDict.mem. induction d as [|[k' v'] d IH]; simpl.
  - reflexivity.
  - destruct (String.eqb k' k) eqn:E; simpl; [reflexivity|].
    rewrite IH. destruct (PyDict.get d k); reflexivity.
Qed.

Lemma mem_keys {V} (d : PyDict.dict V) k :
  PyDict.mem d k = true <-> In k (keys d).
Proof.
  unfold keys, PyDict.mem. induction d as [|[k' v'] d IH]; simpl.
  - split; [discriminate | tauto].
  - destruct (String.eqb_spec k' k) as [->|Hne].
    + split; auto.
    + rewrite IH. split; [auto | intros [H|H]; [congruence | exact H]].
Qed.

(** X9: assigning to a key of the file table keeps the order of the ids.
    An id that is present keeps its position (only its record changes), a
    new id goes to the end, and ids that were distinct stay distinct. *)
Theorem table_write_keeps_order {V} (d : PyDict.dict V) k v :
  keys (PyDict.set d k v) = (if PyDict.mem d k then keys d else (keys d ++ [k])%list)
  /\ (NoDup (keys d) -> NoDup (keys (PyDict.set d k v))).
Proof.
  split; [apply keys_set|].
  intros Hn. rewrite keys_set. destruct (PyDict.mem d k) eqn:E; [exact Hn|].
  apply NoDup_app; [exact Hn | repeat constructor; simpl; tauto |].
  intros x Hx [<-|[]]. apply mem_keys in Hx. congruence.
Qed.

Lemma table_write_keeps_order_witness :
  NoDup (keys (PyDict.set same_day_table "0f8fad5b" new_record)).
Proof.
  apply (proj2 (table_write_keeps_order same_day_table "0f8fad5b" new_record)).
  repeat constructor; simpl; intuition discriminate.
Defined.

(** ** The upload handler: reporting, frame and invariants *)

Lemma format_size_ok_bounds n s :
  Fmt.format_size n = Ok s -> 0 <= n < 1024 ^ 4.
Proof.
  intros H. destruct (Z.lt_ge_cases n 0) as [Hn|Hn].
  - unfold Fmt.format_size in H.
    destruct (Z.eqb_spec n 0); [lia|].
    rewrite (proj2 (Z.ltb_lt n 0) Hn) in H. discriminate H.
  - split; [exact Hn|].
    destruct (Z.lt_ge_cases n (1024 ^ 4)) as [Hlt|Hge]; [exact Hlt|].
    rewrite (format_size_raises n Hge) in H. discriminate H.
Qed.

Ltac drop_units := repeat match goal with u : unit |- _ => destruct u end.

Ltac size_facts :=
  repeat match goal with
  | H : Fmt.format_size _ = Ok _ |- _ => apply format_size_ok_bounds in H
  | H : (_ >? _) = false |- _ => rewrite Z.gtb_ltb in H; apply Z.ltb_ge in H
  end.

Ltac find_put H :=
  cbn [In] in H;
  repeat (destruct H as [H|H]; [try discriminate H|]);
  try contradiction.

Ltac split_sends :=
  repeat match goal with
  | |- context [Bot.env_send ?env ?t] => destruct (Bot.env_send env t) eqn:?
  end.

Ltac close_leaf2 :=
  split_sends; drop_units;
  cbn [rev app existsb is_error_reply orb quiet_after_failed_send
       is_failed_send is_report forallb andb Bot.count filter Bot.is_put
       List.length];
  (split;
   [ first [ left; split; reflexivity
           | right; do 3 eexists; split; reflexivity ]
   | split;
     [ intros file_id info Hin; find_put Hin;
       try (injection Hin as <- <-; cbn [Bot.file_size Bot.user_id];
            size_facts; repeat split; try reflexivity; lia)
     | split; [reflexivity | lia] ] ]).

Lemma run_report env message w :
  ((Bot.result_of (Bot.handle_file_upload env message w) = Ok tt
    /\ existsb is_error_reply
         (Bot.events_of (Bot.handle_file_upload env message w)) = false)
   \/ exists e r rest,
        rev (Bot.events_of (Bot.handle_file_upload env message w))
          = Bot.EvReply (Bot.TUploadError (Bot.exn_str e)) r
              :: Bot.EvLogError e :: rest
        /\ Bot.result_of (Bot.handle_file_upload env message w) = r)
  /\ (forall file_id info,
        In (Bot.EvPut file_id info)
           (Bot.events_of (Bot.handle_file_upload env message w)) ->
        file_id = Bot.env_uuid4 env
        /\ 0 <= Bot.file_size info <= Bot.max_file_size
        /\ Bot.user_id info = Bot.from_user_id message)
  /\ quiet_after_failed_send
       (Bot.events_of (Bot.handle_file_upload env message w)) = true
  /\ (Bot.count Bot.is_put
        (Bot.events_of (Bot.handle_file_upload env message w)) <= 1)%nat.
Proof.
  run_cases; close_leaf2.
Qed.

(** X10: the handler reports every exception of its body.  Either the body
    ran to its end (the result is normal and no error reply was sent), or
    the last two actions are the log entry for the exception and the reply
    "Upload failed: <text of the exception>", and the handler's own outcome
    is the outcome of that reply: an exception leaves the handler only when
    sending the failure reply itself raises. *)
Theorem handler_reports_every_exception env message w :
  (Bot.result_of (Bot.handle_file_upload env message w) = Ok tt
   /\ existsb is_error_reply
        (Bot.events_of (Bot.handle_file_upload env message w)) = false)
  \/ exists e r rest,
       rev (Bot.events_of (Bot.handle_file_upload env message w))
         = Bot.EvReply (Bot.TUploadError (Bot.exn_str e)) r
             :: Bot.EvLogError e :: rest
       /\ Bot.result_of (Bot.handle_file_upload env message w) = r.
Proof. exact (proj1 (run_report env message w)). Qed.

(** X11: a message without a document, video, audio or photo is answered
    with the unsupported-type reply inside the throttler; nothing is
    transferred, written or removed, and the state is as before. *)
Theorem unsupported_message_is_refused env message w :
  Bot.select_file_info message = None ->
  Bot.world_of (Bot.handle_file_upload env message w) = w
  /\ (exists rest,
        Bot.events_of (Bot.handle_file_upload env message w)
        = Bot.EvAcquire
            :: Bot.EvReply Bot.TUnsupported (Bot.env_send env Bot.TUnsupported)
            :: rest
        /\ forallb is_report rest = true).
Proof.
  intros Hsel. step_run. rewrite Hsel. step_run.
  destruct (Bot.env_send env Bot.TUnsupported) as [u|e]; step_run.
  - split; [reflexivity|]. exists []. split; reflexivity.
  - destruct (Bot.env_send env (Bot.TUploadError (Bot.exn_str e)));
      (split; [reflexivity|]); eexists; split; reflexivity.
Qed.

Lemma unsupported_message_is_refused_witness :
  Bot.world_of (Bot.handle_file_upload sample_env empty_message empty_world)
    = empty_world
  /\ (exists rest,
        Bot.events_of (Bot.handle_file_upload sample_env empty_message empty_world)
        = Bot.EvAcquire
            :: Bot.EvReply Bot.TUnsupported (Bot.env_send sample_env Bot.TUnsupported)
            :: rest
        /\ forallb is_report rest = true).
Proof.
  apply (unsupported_message_is_refused sample_env empty_message empty_world).
  reflexivity.
Defined.




Lemma sizes_within_limit_set table k info :
  sizes_within_limit table ->
  0 <= Bot.file_size info <= Bot.max_file_size ->
  sizes_within_limit (PyDict.set table k info).
Proof.
  unfold sizes_within_limit. intros Ht Hi.
  induction Ht as [|[k' v'] d Hx Hd IH]; simpl.
  - constructor; [exact Hi | constructor].
  - destruct (String.eqb k' k); constructor; auto.
Qed.

Lemma handler_keeps_sizes_within_limit env message w :
  sizes_within_limit (Bot.uploaded_files w) ->
  sizes_within_limit
    (Bot.uploaded_files (Bot.world_of (Bot.handle_file_upload env message w))).
Proof.
  intros Hw.
  destruct (run_shape env message w) as (_ & _ & _ & _ & [[_ ->]|(info & Hin & -> & _)]).
  - exact Hw.
  - destruct (run_report env message w) as (_ & Hput & _).
    destruct (Hput _ _ Hin) as (_ & Hs & _).
    apply sizes_within_limit_set; assumption.
Qed.

Lemma relay_all_keeps_sizes runs : forall w,
  sizes_within_limit (Bot.uploaded_files w) ->
  sizes_within_limit (Bot.uploaded_files (relay_all runs w)).
Proof.
  unfold relay_all.
  induction runs as [|run runs IH]; intros w Hw; simpl.
  - exact Hw.
  - apply IH. apply handler_keeps_sizes_within_limit. exact Hw.
Qed.

(** X12: every record the handler writes carries a size between 0 and
    4 GiB, whatever the surroundings do.  So a table whose records are all
    within the limit stays so over any sequence of invocations, with any
    messages and any behaviour of the transport, the object store and
    Telegram. *)
Theorem uploads_keep_sizes_within_limit runs w :
  sizes_within_limit (Bot.uploaded_files w) ->
  sizes_within_limit (Bot.uploaded_files (relay_all runs w)).
Proof. apply relay_all_keeps_sizes. Qed.

Lemma uploads_keep_sizes_within_limit_witness :
  sizes_within_limit
    (Bot.uploaded_files
       (relay_all [(sample_env, document_message (10 * 1024 * 1024));
                   (upload_refused_env, document_message 1536)] empty_world)).
Proof.
  apply (uploads_keep_sizes_within_limit
           [(sample_env, document_message (10 * 1024 * 1024));
            (upload_refused_env, document_message 1536)] empty_world).
  constructor.
Defined.

Lemma build_returns table :
  sizes_within_limit table -> exists entries, Web.build table = Ok entries
    /\ map Web.id entries = keys table.
Proof.
  assert (Hmax : Bot.max_file_size < 1024 ^ 4) by reflexivity.
  unfold sizes_within_limit, keys.
  induction 1 as [|[k v] d Hx Hd IH]; simpl.
  - exists []. split; reflexivity.
  - simpl in Hx.
    destruct (format_size_returns (Bot.file_size v) ltac:(lia)) as [sz ->].
    destruct IH as (entries & -> & Hk).
    eexists. split; [reflexivity|]. simpl. rewrite Hk. reflexivity.
Qed.

(** X13: evaluated on the table as any sequence of completed upload
    invocations, started from the empty table, has left it, the body of
    [GET /api/files] returns the success answer: no size the handler stores
    makes the size formatter raise.  This is a statement about one request
    on a table at rest; a request served by the web thread while an
    invocation inserts into the same dict is not covered. *)
Theorem api_files_succeeds_after_uploads runs :
  exists files,
    Web.api_files (Bot.uploaded_files (relay_all runs empty_world))
    = Web.Success files.
Proof.
  assert (H : sizes_within_limit (Bot.uploaded_files (relay_all runs empty_world))).
  { apply relay_all_keeps_sizes. constructor. }
  destruct (build_returns _ H) as (entries & Hb & _).
  unfold Web.api_files, PyDict.items. rewrite Hb. eexists. reflexivity.
Qed.

(** X14: an invocation touches no record but its own.  Under every id other
    than the one it generated the table holds what it held before; the
    table is written at most once and the throttler is acquired exactly
    once, whatever happens. *)
Theorem handler_touches_only_its_record env message w :
  (forall k, k <> Bot.env_uuid4 env ->
     PyDict.get (Bot.uploaded_files (Bot.world_of (Bot.handle_file_upload env message w))) k
     = PyDict.get (Bot.uploaded_files w) k)
  /\ (Bot.count Bot.is_put
        (Bot.events_of (Bot.handle_file_upload env message w)) <= 1)%nat
  /\ Bot.count Bot.is_acquire
       (Bot.events_of (Bot.handle_file_upload env message w)) = 1%nat.
Proof.
  destruct (run_shape env message w) as (_ & _ & Hacq & _ & Hput).
  destruct (run_report env message w) as (_ & _ & _ & Hone).
  split; [|split; assumption].
  intros k Hk. destruct Hput as [[_ ->]|(info & _ & -> & _)].
  - reflexivity.
  - apply dict_get_set_other. exact Hk.
Qed.

Lemma handler_touches_only_its_record_witness :
  PyDict.get
    (Bot.uploaded_files
       (Bot.world_of
          (Bot.handle_file_upload sample_env (document_message 1536)
             {| Bot.uploaded_files := [("7c9e6679", new_record)];
                Bot.staged := [] |}))) "7c9e6679"
  = PyDict.get [("7c9e6679", new_record)] "7c9e6679".
Proof.
  apply (proj1 (handler_touches_only_its_record sample_env (document_message 1536)
                  {| Bot.uploaded_files := [("7c9e6679", new_record)];
                     Bot.staged := [] |}) "7c9e6679").
  discriminate.
Defined.

Lemma quiet_after_failed_send_spec pre : forall ev post,
  quiet_after_failed_send (pre ++ ev :: post) = true ->
  is_failed_send ev = true ->
  forallb is_report post = true.
Proof.
  induction pre as [|x pre IH]; intros ev post Hq Hf; simpl in Hq.
  - rewrite Hf in Hq. apply andb_true_iff in Hq. tauto.
  - apply andb_true_iff in Hq. destruct Hq as [_ Hq]. exact (IH _ _ Hq Hf).
Qed.

(** X15: a send of the handler itself that raises ends the transfer.  The
    handler sends four kinds of message in its own body: the rejection of an
    unsupported or oversized file, the download announcement, the download
    statistics and the final status.  After one of these replies or edits
    raised, the log holds only the error log entry and the failure reply:
    no download, no upload, no table write and no removal follows.  In
    particular the file is not uploaded when publishing the download
    statistics fails.  The progress edits that the two trackers make while
    a transfer runs are not among these sends: they catch their own
    exceptions, the transfer goes on, and the log has no event for them. *)
Theorem failed_send_ends_the_transfer env message w pre ev post :
  Bot.events_of (Bot.handle_file_upload env message w) = (pre ++ ev :: post)%list ->
  is_failed_send ev = true ->
  forallb is_report post = true.
Proof.
  intros He Hf.
  destruct (run_report env message w) as (_ & _ & Hq & _).
  rewrite He in Hq. exact (quiet_after_failed_send_spec pre ev post Hq Hf).
Qed.

Lemma failed_send_ends_the_transfer_witness :
  forallb is_report
    [Bot.EvLogError (OtherError "FLOOD_WAIT");
     Bot.EvReply (Bot.TUploadError "FLOOD_WAIT") (Ok tt)] = true.
Proof.
  apply (failed_send_ends_the_transfer edit_refused_env
           (document_message (10 * 1024 * 1024)) empty_world
           [Bot.EvAcquire;
            Bot.EvReply Bot.TDownloadInit (Ok tt);
            Bot.EvMkdir "downloads";
            Bot.EvDownload "downloads/0f8fad5b_a.bin" (Ok tt)]
           (Bot.EvEdit (Bot.TDownloadComplete "a.bin" "10.0 MB" "5.00" "2.0")
              (Raise (OtherError "FLOOD_WAIT")))).
  - vm_compute. reflexivity.
  - reflexivity.
Defined.

(** ** The [/list] and [/download] commands *)

Lemma list_entries_returns table uid :
  sizes_within_limit table ->
  exists entries,
    Commands.list_entries table uid = Ok entries
    /\ map Commands.le_id entries = keys (filter (Commands.owned_by uid) table)
    /\ map Commands.le_name entries
       = map (fun item => Bot.original_name (snd item))
           (filter (Commands.owned_by uid) table).
Proof.
  assert (Hmax : Bot.max_file_size < 1024 ^ 4) by reflexivity.
  unfold sizes_within_limit, keys, Commands.owned_by.
  induction 1 as [|[k v] d Hx Hd IH]; simpl.
  - exists []. repeat split.
  - simpl in Hx. destruct IH as (entries & He & Hi & Hn).
    destruct (Bot.user_id v =? uid).
    + destruct (format_size_returns (Bot.file_size v) ltac:(lia)) as [sz ->].
      rewrite He. eexists. split; [reflexivity|].
      simpl. rewrite Hi, Hn. split; reflexivity.
    + exists entries. auto.
Qed.

(** X16: [/list] shows a user exactly that user's records.  On a table
    whose sizes are within the limit the handler never raises on its own:
    it sends the no-files text when the user owns no record, and otherwise
    one reply whose blocks are the user's records in the order of the
    table, and no record of another user. *)
Theorem list_shows_the_users_records env table uid :
  sizes_within_limit table ->
  (filter (Commands.owned_by uid) table = [] ->
   Commands.handle_list_files env table uid
   = Commands.reply_text env Commands.TNoFiles)
  /\ (filter (Commands.owned_by uid) table <> [] ->
      exists entries,
        Commands.handle_list_files env table uid
        = Commands.reply_text env (Commands.TFileList entries)
        /\ map Commands.le_id entries = keys (filter (Commands.owned_by uid) table)
        /\ map Commands.le_name entries
           = map (fun item => Bot.original_name (snd item))
               (filter (Commands.owned_by uid) table)).
Proof.
  intros Hs. unfold Commands.handle_list_files, PyDict.items. split.
  - intros ->. reflexivity.
  - intros Hne.
    destruct (list_entries_returns table uid Hs) as (entries & He & Hi & Hn).
    destruct (filter (Commands.owned_by uid) table) eqn:Ef; [congruence|].
    rewrite He. exists entries. repeat split; assumption.
Qed.

Lemma list_shows_the_users_records_witness :
  exists entries,
    Commands.handle_list_files command_env same_day_table 7
    = Commands.reply_text command_env (Commands.TFileList entries)
    /\ map Commands.le_id entries
       = keys (filter (Commands.owned_by 7) same_day_table)
    /\ map Commands.le_name entries
       = map (fun item => Bot.original_name (snd item))
           (filter (Commands.owned_by 7) same_day_table).
Proof.
  apply (proj2 (list_shows_the_users_records command_env same_day_table 7
                  ltac:(repeat (apply Forall_cons;
                                  [split; apply Z.leb_le; reflexivity|]);
                        apply Forall_nil))).
  discriminate.
Defined.

Ltac command_cases :=
  step_command; repeat (split_scrutinee; step_command).

(** X17: [/download] asks the object store for a link only for an id it
    knows.  A presign request is made at most once, always with a lifetime
    of 86400 s and for the object key of the record stored under the second
    word of the command.  A command without an id gets the usage text, an
    unknown id gets the not-found text, in both cases without any presign
    request; and the handler lets an exception escape only when sending the
    error reply itself raises. *)
Theorem download_command_presigns_known_ids env table command_parts :
  (forall key ttl r,
     In (Commands.EvPresign key ttl r)
        (fst (Commands.handle_download_command env table command_parts)) ->
     ttl = 86400
     /\ r = Commands.env_presign env key ttl
     /\ exists file_id info,
          nth_error command_parts 1 = Some file_id
          /\ PyDict.get table file_id = Some info
          /\ key = Bot.object_key info)
  /\ (List.length
        (filter Commands.is_presign
           (fst (Commands.handle_download_command env table command_parts))) <= 1)%nat
  /\ (nth_error command_parts 1 = None ->
      exists rest,
        fst (Commands.handle_download_command env table command_parts)
        = Commands.EvReply Commands.TUsage
            (Commands.env_send env Commands.TUsage) :: rest
        /\ filter Commands.is_presign rest = [])
  /\ (forall file_id,
        nth_error command_parts 1 = Some file_id ->
        PyDict.get table file_id = None ->
        exists rest,
          fst (Commands.handle_download_command env table command_parts)
          = Commands.EvReply Commands.TNotFound
              (Commands.env_send env Commands.TNotFound) :: rest
          /\ filter Commands.is_presign rest = [])
  /\ (snd (Commands.handle_download_command env table command_parts) = Ok tt
      \/ snd (Commands.handle_download_command env table command_parts)
         = Commands.env_send env Commands.TLinkError).
Proof.
  destruct command_parts as [|word [|file_id more]]; cbn [nth_error].
  1,2: command_cases; drop_units;
    (split; [intros key ttl r Hin; cbn [In] in Hin;
             repeat (destruct Hin as [Hin|Hin]; try discriminate Hin);
             contradiction|]);
    (split; [cbn; lia|]);
    (split; [intros _; eexists; split; reflexivity|]);
    (split; [intros fid Hf; discriminate Hf|]);
    auto.
  command_cases; drop_units;
    (split; [intros key ttl r Hin; cbn [In] in Hin;
             repeat (destruct Hin as [Hin|Hin]; try discriminate Hin);
             try contradiction;
             injection Hin as <- <- <-;
             (split; [reflexivity|]); (split; [congruence|]);
             eauto|]);
    (split; [cbn; lia|]);
    (split; [intros Hn; discriminate Hn|]);
    (split; [intros fid Hf Hg; injection Hf as <-;
             first [congruence | eexists; split; reflexivity]|]);
    auto.
Qed.

(** ** The web routes *)

(** X18: [GET /stream/<file_id>] redirects only to a link issued for that
    very record in that very request.  An unknown id gives 404; a known id
    gives either a redirect to the non-empty URL the object store returned
    for the record's object key with a lifetime of 3600 s, or 500; no other
    status occurs. *)
Theorem stream_redirects_to_fresh_link presign table file_id :
  (PyDict.get table file_id = None ->
   Routes.stream_file presign table file_id = Routes.Body 404 "File not found")
  /\ (forall url,
        Routes.stream_file presign table file_id = Routes.Redirect url ->
        url <> ""
        /\ exists info,
             PyDict.get table file_id = Some info
             /\ presign (Bot.object_key info) 3600 = Ok url)
  /\ (forall info url,
        PyDict.get table file_id = Some info ->
        presign (Bot.object_key info) 3600 = Ok url ->
        url <> "" ->
        Routes.stream_file presign table file_id = Routes.Redirect url)
  /\ (forall status text,
        Routes.stream_file presign table file_id = Routes.Body status text ->
        (status = 404 /\ PyDict.get table file_id = None)
        \/ (status = 500 /\ PyDict.get table file_id <> None)).
Proof.
  unfold Routes.stream_file.
  destruct (PyDict.get table file_id) as [info|] eqn:Eg.
  - split; [discriminate|]. split; [|split].
    + intros url H.
      destruct (presign (Bot.object_key info) 3600) as [u|e] eqn:Ep.
      * destruct (String.eqb_spec u "") as [->|Hne]; simpl in H; [discriminate|].
        injection H as <-. split; [exact Hne|]. exists info.
        split; [reflexivity | exact Ep].
      * destruct e; discriminate.
    + intros info' url Hi Hp Hne. injection Hi as <-. rewrite Hp.
      destruct (String.eqb_spec url ""); [contradiction|reflexivity].
    + intros status text H. right.
      destruct (presign (Bot.object_key info) 3600) as [u|e].
      * destruct (String.eqb u ""); simpl in H; [|discriminate].
        injection H as <- _. split; [reflexivity|discriminate].
      * destruct e; injection H as <- _; (split; [reflexivity|discriminate]).
  - split; [reflexivity|]. split; [discriminate|]. split; [discriminate|].
    intros status text H. injection H as <- _. left. split; reflexivity.
Qed.

Lemma stream_redirects_to_fresh_link_witness :
  Routes.stream_file (Commands.env_presign command_env) same_day_table "7c9e6679"
  = Routes.Redirect "https://signed.example/files/7/0f8fad5b_new.bin".
Proof.
  apply (proj1 (proj2 (proj2 (stream_redirects_to_fresh_link
                                 (Commands.env_presign command_env)
                                 same_day_table "7c9e6679")))
           new_record).
  - reflexivity.
  - reflexivity.
  - discriminate.
Defined.

Lemma insert_desc_perm x l : Permutation (Web.insert_desc x l) (x :: l).
Proof.
  induction l as [|y l IH]; simpl.
  - apply Permutation_refl.
  - destruct (String.ltb (Web.date y) (Web.date x)).
    + apply Permutation_refl.
    + apply Permutation_trans with (y :: x :: l).
      * apply perm_skip. exact IH.
      * apply perm_swap.
Qed.

Lemma sort_by_date_desc_perm l : Permutation (Web.sort_by_date_desc l) l.
Proof.
  unfold Web.sort_by_date_desc.
  assert (H : forall acc,
            Permutation (fold_left (fun acc x => Web.insert_desc x acc) l acc)
                        (acc ++ l)%list).
  { induction l as [|x l IH]; intros acc; simpl.
    - rewrite app_nil_r. apply Permutation_refl.
    - apply Permutation_trans with (Web.insert_desc x acc ++ l)%list; [apply IH|].
      apply Permutation_trans with ((x :: acc) ++ l)%list.
      + apply Permutation_app_tail. apply insert_desc_perm.
      + simpl. apply Permutation_middle. }
  apply (H []).
Qed.

Lemma in_firstn {A} n (l : list A) x : In x (firstn n l) -> In x l.
Proof.
  intros H. rewrite <- (firstn_skipn n l). apply in_or_app. now left.
Qed.

(** X19: the listing shows records of the table and nothing else.  On a
    table whose sizes are within the limit, [GET /api/files] returns
    [min(20, n)] entries for a table of [n] records, every id listed is an
    id of the table, and when the table has at most twenty records the ids
    listed are exactly the ids of the table, each once. *)
Theorem api_files_lists_the_table table :
  sizes_within_limit table ->
  exists files,
    Web.api_files table = Web.Success files
    /\ List.length files = Nat.min 20 (PyDict.len table)
    /\ incl (map Web.id files) (keys table)
    /\ ((PyDict.len table <= 20)%nat ->
        Permutation (map Web.id files) (keys table)).
Proof.
  intros Hs. destruct (build_returns table Hs) as (entries & Hb & Hk).
  unfold Web.api_files, PyDict.items. rewrite Hb.
  pose proof (sort_by_date_desc_perm entries) as Hp.
  assert (Hlen : List.length (Web.sort_by_date_desc entries) = PyDict.len table).
  { rewrite (Permutation_length Hp). unfold PyDict.len.
    rewrite <- (length_map Web.id entries), Hk. unfold keys. apply length_map. }
  eexists. split; [reflexivity|]. split; [|split].
  - rewrite length_firstn, Hlen. reflexivity.
  - intros x Hx. rewrite <- Hk.
    apply (Permutation_in x (Permutation_map Web.id Hp)).
    apply in_map_iff in Hx. destruct Hx as (f & <- & Hf).
    apply in_map. apply (in_firstn _ _ _ Hf).
  - intros Hle. rewrite firstn_all2 by lia.
    rewrite <- Hk. apply Permutation_map. exact Hp.
Qed.

Lemma api_files_lists_the_table_witness :
  exists files,
    Web.api_files same_day_table = Web.Success files
    /\ List.length files = Nat.min 20 (PyDict.len same_day_table)
    /\ incl (map Web.id files) (keys same_day_table)
    /\ ((PyDict.len same_day_table <= 20)%nat ->
        Permutation (map Web.id files) (keys same_day_table)).
Proof.
  apply (api_files_lists_the_table same_day_table).
  repeat (apply Forall_cons; [split; apply Z.leb_le; reflexivity|]).
  apply Forall_nil.
Defined.

(** ** Start-up *)

(** X20: [main] gets past its check of the environment, and goes on to
    construct the bot, exactly when each of the seven required variables is
    set to a non-empty string; a variable set to the empty string counts as
    missing, and with any variable missing [main] returns after logging,
    without constructing the bot.  Whether the constructor and the start of
    the bot then succeed is decided by library code and is not stated. *)
Theorem main_passes_check_iff_configured getenv :
  Main.main getenv = Main.CheckPassed
  <-> (forall var, In var Main.required_vars ->
         exists value, getenv var = Some value /\ value <> "").
Proof.
  unfold Main.main.
  assert (H : Main.missing_vars getenv = [] <->
              forall var, In var Main.required_vars ->
                exists value, getenv var = Some value /\ value <> "").
  { unfold Main.missing_vars. generalize Main.required_vars as vars.
    induction vars as [|v vars IH]; simpl.
    - split; [intros _ var []|reflexivity].
    - unfold Main.unset at 1.
      destruct (getenv v) as [s|] eqn:Ev.
      + destruct (String.eqb_spec s "") as [->|Hne].
        * split; [discriminate|]. intros H. exfalso.
          destruct (H v (or_introl eq_refl)) as (value & Hv & Hn). congruence.
        * rewrite IH. split.
          -- intros H var [<-|Hin]; [eauto | auto].
          -- intros H var Hin. apply H. now right.
      + split; [discriminate|]. intros H. exfalso.
        destruct (H v (or_introl eq_refl)) as (value & Hv & _). congruence. }
  rewrite <- H. destruct (Main.missing_vars getenv); split; congruence.
Qed.

Lemma main_passes_check_iff_configured_witness :
  Main.main full_environment = Main.CheckPassed.
Proof.
  apply (proj2 (main_passes_check_iff_configured full_environment)).
  intros var _. exists "value". split; [reflexivity | discriminate].
Defined.

(** ** The number the size formatter prints *)

(** X21: the size formatter prints a number between 1.0 and 1024.0.  For
    [0 < n < 1024^4] the text is that number (rounded to hundredths) followed
    by the unit; the number is never below 1, and it reaches 1024.0 only
    through rounding, just below a power of 1024. *)
Theorem format_size_prints_one_to_1024 n :
  0 < n < 1024 ^ 4 ->
  100 <= printed_hundredths n <= 102400
  /\ exists unit,
       nth_error Fmt.size_names (Z.to_nat (floor_log1024 n)) = Some unit
       /\ Fmt.format_size n
          = Ok (hundredths_string (printed_hundredths n) ++ " " ++ unit).
Proof.
  intros Hn.
  destruct (floor_log1024_spec n ltac:(lia)) as (Hi & Hlo & Hhi).
  split.
  - unfold printed_hundredths.
    set (p := 1024 ^ floor_log1024 n) in *.
    assert (Hp : 0 < p) by (apply Z.pow_pos_nonneg; lia).
    pose proof (round_half_even_bounds ((n # Z.to_pos p) * 100)) as Hr.
    assert (Hf : Qfloor ((n # Z.to_pos p) * 100) = n * 100 / p).
    { unfold Qfloor, Qmult. simpl. rewrite Pos.mul_1_r.
      rewrite Z2Pos.id by exact Hp. reflexivity. }
    rewrite Hf in Hr.
    replace (1024 ^ (floor_log1024 n + 1)) with (1024 * p) in Hhi
      by (unfold p; rewrite Z.pow_add_r by lia; lia).
    assert (100 <= n * 100 / p) by (apply Z.div_le_lower_bound; lia).
    assert (n * 100 / p < 102400) by (apply Z.div_lt_upper_bound; lia).
    lia.
  - destruct (format_size_small n ltac:(lia)) as (unit & Hu & [H0|Hf]); [lia|].
    exists unit. split; [exact Hu|]. rewrite Hf. reflexivity.
Qed.

Lemma format_size_prints_one_to_1024_witness :
  100 <= printed_hundredths 1048575 <= 102400
  /\ exists unit,
       nth_error Fmt.size_names (Z.to_nat (floor_log1024 1048575)) = Some unit
       /\ Fmt.format_size 1048575
          = Ok (hundredths_string (printed_hundredths 1048575) ++ " " ++ unit).
Proof.
  apply (format_size_prints_one_to_1024 1048575).
  split; reflexivity.
Defined.

(** X22: without a staging file there is no upload.  When the download
    leaves no file at the staging path (and none was there before), the
    object store is never called, however the download call ended: the
    handler reports a failure to the user, writes nothing to the file table
    and leaves the state as it was. *)
Theorem missing_staging_file_prevents_upload env message w file_info :
  Bot.select_file_info message = Some file_info ->
  Bot.media_file_size file_info <= Bot.max_file_size ->
  Bot.env_download_writes_file env = false ->
  Bot.path_in (staging_path env file_info) (Bot.staged w) = false ->
  Bot.world_of (Bot.handle_file_upload env message w) = w
  /\ existsb is_upload (Bot.events_of (Bot.handle_file_upload env message w)) = false
  /\ existsb is_error_reply
       (Bot.events_of (Bot.handle_file_upload env message w)) = true.
Proof.
  intros Hsel Hsize Hwr Hpath.
  assert (Hguard : (Bot.media_file_size file_info >? Bot.max_file_size) = false).
  { rewrite Z.gtb_ltb. apply Z.ltb_ge. exact Hsize. }
  destruct w as [table files].
  unfold staging_path, name_of in Hpath. cbn [Bot.staged] in Hpath.
  step_run. rewrite Hsel. step_run. rewrite Hguard, Hwr. step_run.
  rewrite ?Hpath. step_run.
  repeat (split_scrutinee; step_run; rewrite ?Hpath; step_run);
    repeat split; reflexivity.
Qed.

Lemma missing_staging_file_prevents_upload_witness :
  Bot.world_of
    (Bot.handle_file_upload download_failed_env
       (document_message (10 * 1024 * 1024)) empty_world) = empty_world
  /\ existsb is_upload
       (Bot.events_of
          (Bot.handle_file_upload download_failed_env
             (document_message (10 * 1024 * 1024)) empty_world)) = false
  /\ existsb is_error_reply
       (Bot.events_of
          (Bot.handle_file_upload download_failed_env
             (document_message (10 * 1024 * 1024)) empty_world)) = true.
Proof.
  apply (missing_staging_file_prevents_upload download_failed_env
           (document_message (10 * 1024 * 1024)) empty_world sample_document).
  - reflexivity.
  - apply Z.leb_le. reflexivity.
  - reflexivity.
  - reflexivity.
Defined.
